(** * Schema descriptor: a Rocq model of [model_descriptor.py]

    The development embeds [Field], [ModelDescriptor.__init__],
    [ModelDescriptor._load] and the two rendering properties [markdown] and
    [plantuml_entity], and states the ordering, grouping, separator and
    error-propagation properties of the schema documentation generator
    over that embedding.

    The query diagnostics of [orm_query_utils.py] are embedded as well
    (module [Orm]): the printing functions and the decorator act on
    standard output and on the query logs of the connections.

    Python [str] values are modelled as [string]; the four patterns the
    source searches for (space, line feed, underscore, comma) are ASCII, so
    the byte-level view agrees with the code-point view on them. *)

From Stdlib Require Import String Ascii List Bool Arith ZArith Lia Permutation.
Import ListNotations.

Local Open Scope string_scope.
Local Open Scope list_scope.

Infix "+++" := String.append (right associativity, at level 60).

(** ** Python built-ins *)

Module Py.

Definition LF : ascii := ascii_of_nat 10.
Definition TAB : ascii := ascii_of_nat 9.
Definition nl : string := String LF EmptyString.
Definition tab : string := String TAB EmptyString.

(** [str.replace(old, new)] for a non-empty [old]: scan left to right,
    replace every non-overlapping occurrence.  [skip] counts the
    characters of a matched occurrence still to be dropped. *)
Fixpoint replace_from (old new : string) (skip : nat) (s : string) : string :=
  match s with
  | EmptyString => EmptyString
  | String c s' =>
      match skip with
      | S k => replace_from old new k s'
      | O =>
          if String.prefix old (String c s')
          then new +++ replace_from old new (String.length old - 1) s'
          else String c (replace_from old new 0 s')
      end
  end.

(** With an empty [old] Python inserts [new] before every character and
    at the end. *)
Fixpoint replace_empty (new : string) (s : string) : string :=
  match s with
  | EmptyString => new
  | String c s' => new +++ String c (replace_empty new s')
  end.

Definition replace (old new s : string) : string :=
  match old with
  | EmptyString => replace_empty new s
  | String _ _ => replace_from old new 0 s
  end.

(** [sep.join(parts)] *)
Definition join (sep : string) (parts : list string) : string :=
  String.concat sep parts.

(** [str.upper()] on the ASCII letters; other bytes are unchanged. *)
Definition upper_ascii (c : ascii) : ascii :=
  let n := nat_of_ascii c in
  if ((97 <=? n)%nat && (n <=? 122)%nat)%bool then ascii_of_nat (n - 32) else c.

Fixpoint upper (s : string) : string :=
  match s with
  | EmptyString => EmptyString
  | String c s' => String (upper_ascii c) (upper s')
  end.

(** [enumerate(l)] *)
Definition enumerate {A : Type} (l : list A) : list (nat * A) :=
  combine (seq 0 (length l)) l.

(** [list.sort(key=..., reverse=...)] on boolean keys ([False < True]).
    Python's sort is stable, also with [reverse=True]: elements with equal
    keys keep their relative order.  A stable sort has one possible result
    (see [stable_sort_unique]), so the insertion sort below stands for
    Python's own algorithm.  [goes_before rev kx ky] says that an element
    of key [kx] has to be placed strictly before one of key [ky]. *)
Definition bool_lt (a b : bool) : bool := negb a && b.

Definition goes_before (reverse : bool) (kx ky : bool) : bool :=
  if reverse then bool_lt ky kx else bool_lt kx ky.

(** [x] stood before every element of [l] in the input, so it is placed
    in front of the first element that need not precede it. *)
Fixpoint insert {A : Type} (key : A -> bool) (reverse : bool)
    (x : A) (l : list A) : list A :=
  match l with
  | [] => [x]
  | y :: t =>
      if goes_before reverse (key y) (key x)
      then y :: insert key reverse x t
      else x :: y :: t
  end.

Fixpoint sort {A : Type} (key : A -> bool) (reverse : bool)
    (l : list A) : list A :=
  match l with
  | [] => []
  | x :: t => insert key reverse x (sort key reverse t)
  end.

(** [str.split('\n')]; not called by the source, used to read a rendered
    text line by line. *)
Fixpoint split_lines (s : string) : list string :=
  match s with
  | EmptyString => [EmptyString]
  | String c s' =>
      if Ascii.eqb c LF then EmptyString :: split_lines s'
      else match split_lines s' with
           | [] => [String c EmptyString]
           | l :: ls => String c l :: ls
           end
  end.

(** The exceptions that can leave the constructor. *)
Inductive exn : Type :=
| AttributeError (msg : string)
| ConnectionDoesNotExist (alias : string)
| SourceError (cls : string) (msg : string).

Definition exn_class (e : exn) : string :=
  match e with
  | AttributeError _ => "AttributeError"
  | ConnectionDoesNotExist _ => "ConnectionDoesNotExist"
  | SourceError cls _ => cls
  end.

End Py.

(** ** The metadata source (Django), at its interface *)

Module Django.

(** A database connection handle, as looked up in [connections]. *)
Record Connection : Type := {
  alias : string;
  vendor : string
}.

(** [connections]: the alias-indexed handler; indexing with an unknown
    alias raises [ConnectionDoesNotExist]. *)
Definition ConnectionHandler : Type := list (string * Connection).

Fixpoint connections_getitem (connections : ConnectionHandler)
    (key : string) : Py.exn + Connection :=
  match connections with
  | [] => inl (Py.ConnectionDoesNotExist key)
  | (a, c) :: rest =>
      if String.eqb a key then inr c else connections_getitem rest key
  end.

(** One model field.  [db_type(connection)] either raises, or returns
    [None] when the column type cannot be resolved, or returns the type
    string.  [remote_field] may be a missing attribute (outer [None]), the
    value [None] (inner [None]) or a relation to the named model. *)
Record Field : Type := {
  name : string;
  db_type : Connection -> Py.exn + option string;
  verbose_name : string;
  primary_key : bool;
  remote_field : option (option string);
  db_index : bool;
  unique : bool;
  choices : option (list (string * string))
}.

(** [model._meta] *)
Record Options : Type := {
  app_label : string;
  db_table : string;
  fields : list Field;
  index_together : list (list string);
  unique_together : list (list string)
}.

Record Model : Type := {
  _meta : Options;
  __doc__ : string
}.

End Django.

(** ** [class Field(NamedTuple)] *)

Record Field : Type := {
  name : string;
  db_type : string;
  description : string;
  primary_key : bool;
  foreign_key : bool;
  choices : option (list (string * string))
}.

Definition markdown_repr (self : Field) : string :=
  "| " +++ name self +++ " "
  +++ "| " +++ (if primary_key self then "PK, " else "")
  +++ (if foreign_key self then "FK, " else "") +++ db_type self +++ " "
  +++ "| " +++ description self +++ " |" +++ Py.nl.

Definition plantuml_entity_repr (self : Field) : string :=
  Py.tab +++ name self +++ ": " +++ (if primary_key self then "PK, " else "")
  +++ (if foreign_key self then "FK, " else "") +++ db_type self +++ Py.nl.

(** ** [class ModelDescriptor] *)

Record ModelDescriptor : Type := {
  _meta : Django.Options;
  _model_description : string;
  _fields : list Field;
  _db_indexes : list string;
  _unique_constraints : list string
}.

Definition set_fields (fs : list Field) (self : ModelDescriptor) : ModelDescriptor :=
  {| _meta := _meta self;
     _model_description := _model_description self;
     _fields := fs;
     _db_indexes := _db_indexes self;
     _unique_constraints := _unique_constraints self |}.

Definition set_db_indexes (ix : list string) (self : ModelDescriptor) : ModelDescriptor :=
  {| _meta := _meta self;
     _model_description := _model_description self;
     _fields := _fields self;
     _db_indexes := ix;
     _unique_constraints := _unique_constraints self |}.

Definition set_unique_constraints (us : list string) (self : ModelDescriptor) : ModelDescriptor :=
  {| _meta := _meta self;
     _model_description := _model_description self;
     _fields := _fields self;
     _db_indexes := _db_indexes self;
     _unique_constraints := us |}.

(** Methods run against the object [self]: they read and update its
    attributes and may raise. *)
Definition M (A : Type) : Type := ModelDescriptor -> Py.exn + (A * ModelDescriptor).

Definition ret {A : Type} (a : A) : M A := fun self => inr (a, self).

Definition bind {A B : Type} (m : M A) (k : A -> M B) : M B :=
  fun self =>
    match m self with
    | inl e => inl e
    | inr (a, self') => k a self'
    end.

Definition lift {A : Type} (r : Py.exn + A) : M A :=
  fun self =>
    match r with
    | inl e => inl e
    | inr a => inr (a, self)
    end.

Definition gets {A : Type} (attr : ModelDescriptor -> A) : M A :=
  fun self => inr (attr self, self).

Definition modify (f : ModelDescriptor -> ModelDescriptor) : M unit :=
  fun self => inr (tt, f self).

Definition when (b : bool) (m : M unit) : M unit :=
  if b then m else ret tt.

Notation "x <- m ;; k" := (bind m (fun x => k))
  (at level 61, m at next level, right associativity).
Notation "m ;; k" := (bind m (fun _ => k))
  (at level 61, right associativity).

Fixpoint for_each {A : Type} (l : list A) (body : A -> M unit) : M unit :=
  match l with
  | [] => ret tt
  | x :: t => body x ;; for_each t body
  end.

(** [self._fields.append(f)], [self._db_indexes.append(s)],
    [self._unique_constraints.append(s)], [self._fields.sort(...)] *)
Definition fields_append (f : Field) : M unit :=
  modify (fun self => set_fields (_fields self ++ [f]) self).

Definition db_indexes_append (s : string) : M unit :=
  modify (fun self => set_db_indexes (_db_indexes self ++ [s]) self).

Definition unique_constraints_append (s : string) : M unit :=
  modify (fun self => set_unique_constraints (_unique_constraints self ++ [s]) self).

Definition fields_sort (key : Field -> bool) (reverse : bool) : M unit :=
  modify (fun self => set_fields (Py.sort key reverse (_fields self)) self).

(** [x.upper()] where [x] may be [None]. *)
Definition upper_method (x : option string) : Py.exn + string :=
  match x with
  | Some s => inr (Py.upper s)
  | None => inl (Py.AttributeError "'NoneType' object has no attribute 'upper'")
  end.

(** [True if hasattr(f, 'remote_field') and f.remote_field is not None else False] *)
Definition has_relation (remote_field : option (option string)) : bool :=
  match remote_field with
  | Some (Some _) => true
  | _ => false
  end.

Definition _load (connections : Django.ConnectionHandler) : M unit :=
  meta <- gets _meta ;;
  connection <- lift (Django.connections_getitem connections (Django.app_label meta)) ;;
  let fields := Django.fields meta in
  for_each fields (fun django_field =>
    raw_type <- lift (Django.db_type django_field connection) ;;
    upper_type <- lift (upper_method raw_type) ;;
    fields_append
      {| name := Django.name django_field;
         db_type := upper_type;
         description :=
           if negb (String.eqb (Django.verbose_name django_field)
                      (Py.replace "_" " " (Django.name django_field)))
           then Django.verbose_name django_field
           else "";
         primary_key := Django.primary_key django_field;
         foreign_key := has_relation (Django.remote_field django_field);
         choices := Django.choices django_field |} ;;
    when (negb (Django.primary_key django_field) && Django.db_index django_field)
      (db_indexes_append (Django.name django_field)) ;;
    when (negb (Django.primary_key django_field) && Django.unique django_field)
      (unique_constraints_append (Django.name django_field))) ;;
  fields_sort foreign_key true ;;
  fields_sort primary_key true ;;
  for_each (Django.index_together meta) (fun composite_index_fields =>
    db_indexes_append (Py.join "," composite_index_fields)) ;;
  for_each (Django.unique_together meta) (fun unique_constraint_fields =>
    unique_constraints_append (Py.join "," unique_constraint_fields)).

(** [ModelDescriptor(model)]: the object exists for the caller only when
    [__init__] returns. *)
Definition __init__ (connections : Django.ConnectionHandler)
    (model : Django.Model) : Py.exn + ModelDescriptor :=
  let self :=
    {| _meta := Django._meta model;
       _model_description :=
         Py.replace Py.nl "" (Py.replace " " "" (Django.__doc__ model));
       _fields := [];
       _db_indexes := [];
       _unique_constraints := [] |} in
  match _load connections self with
  | inl e => inl e
  | inr (_, self') => inr self'
  end.

(** The [markdown] property. *)
Definition markdown : M string :=
  self <- gets (fun self => self) ;;
  let markdown_str :=
    "## " +++ Django.db_table (_meta self) +++ Py.nl
    +++ _model_description self +++ Py.nl +++ Py.nl
    +++ "#### schema" +++ Py.nl
    +++ "| field_name | type | description |" +++ Py.nl +++ "|---|---|---|" +++ Py.nl in
  let markdown_str :=
    fold_left (fun acc field => acc +++ markdown_repr field) (_fields self) markdown_str in
  let markdown_str :=
    markdown_str +++
      (Py.nl +++ Py.nl
       +++ "#### additional info" +++ Py.nl
       +++ "| type | value | description |" +++ Py.nl +++ "|---|---|---|" +++ Py.nl) in
  let markdown_str :=
    fold_left (fun acc index =>
                 acc +++ ("| index | " +++ Py.replace "," ", " index +++ " | |" +++ Py.nl))
      (_db_indexes self) markdown_str in
  let markdown_str :=
    fold_left (fun acc unique_constraint =>
                 acc +++ ("| unique | " +++ Py.replace "," ", " unique_constraint
                          +++ " | |" +++ Py.nl))
      (_unique_constraints self) markdown_str in
  ret markdown_str.

Definition option_nat_eqb (a b : option nat) : bool :=
  match a, b with
  | Some x, Some y => Nat.eqb x y
  | None, None => true
  | _, _ => false
  end.

(** The [plantuml_entity] property. *)
Definition plantuml_entity : M string :=
  self <- gets (fun self => self) ;;
  let plantuml_entity_str := "entity " +++ Django.db_table (_meta self) +++ " {" +++ Py.nl in
  let last_primary_or_foreign_key_index :=
    fold_left (fun last (p : nat * Field) =>
                 let (i, f) := p in
                 if primary_key f || foreign_key f then Some i else last)
      (Py.enumerate (_fields self)) None in
  let plantuml_entity_str :=
    fold_left (fun acc (p : nat * Field) =>
                 let (i, field) := p in
                 let acc := acc +++ plantuml_entity_repr field in
                 if option_nat_eqb (Some i) last_primary_or_foreign_key_index
                 then acc +++ (Py.tab +++ "--" +++ Py.nl)
                 else acc)
      (Py.enumerate (_fields self)) plantuml_entity_str in
  ret (plantuml_entity_str +++ "}" +++ Py.nl).

(** Concatenation of a list of text pieces, in order. *)
Definition cat (pieces : list string) : string := String.concat "" pieces.

(** Replace every occurrence of the character [c] by the text [new]. *)
Fixpoint subst_char (c : ascii) (new : string) (s : string) : string :=
  match s with
  | EmptyString => EmptyString
  | String d s' =>
      if Ascii.eqb d c then new +++ subst_char c new s'
      else String d (subst_char c new s')
  end.

(** Does the character occur in the text? *)
Fixpoint occurs (c : ascii) (s : string) : bool :=
  match s with
  | EmptyString => false
  | String d s' => Ascii.eqb d c || occurs c s'
  end.

(** Keep the characters accepted by [keep]. *)
Fixpoint filter_chars (keep : ascii -> bool) (s : string) : string :=
  match s with
  | EmptyString => EmptyString
  | String d s' =>
      if keep d then String d (filter_chars keep s') else filter_chars keep s'
  end.

(** ** The constructor, as pure functions *)

(** The [Field] built from one column, or the exception raised on the way. *)
Definition make_field (connection : Django.Connection)
    (django_field : Django.Field) : Py.exn + Field :=
  match Django.db_type django_field connection with
  | inl e => inl e
  | inr raw_type =>
      match upper_method raw_type with
      | inl e => inl e
      | inr upper_type =>
          inr {| name := Django.name django_field;
                 db_type := upper_type;
                 description :=
                   if negb (String.eqb (Django.verbose_name django_field)
                              (Py.replace "_" " " (Django.name django_field)))
                   then Django.verbose_name django_field
                   else "";
                 primary_key := Django.primary_key django_field;
                 foreign_key := has_relation (Django.remote_field django_field);
                 choices := Django.choices django_field |}
      end
  end.

(** The fields of all columns in column order; the first exception wins. *)
Fixpoint make_fields (connection : Django.Connection)
    (columns : list Django.Field) : Py.exn + list Field :=
  match columns with
  | [] => inr []
  | c :: rest =>
      match make_field connection c with
      | inl e => inl e
      | inr f =>
          match make_fields connection rest with
          | inl e => inl e
          | inr fs => inr (f :: fs)
          end
      end
  end.

Definition single_indexes (columns : list Django.Field) : list string :=
  map Django.name
    (filter (fun c => negb (Django.primary_key c) && Django.db_index c) columns).

Definition single_uniques (columns : list Django.Field) : list string :=
  map Django.name
    (filter (fun c => negb (Django.primary_key c) && Django.unique c) columns).

Definition composite_indexes (meta : Django.Options) : list string :=
  map (Py.join ",") (Django.index_together meta).

Definition composite_uniques (meta : Django.Options) : list string :=
  map (Py.join ",") (Django.unique_together meta).

(** The body of the column loop of [_load]. *)
Definition column_step (connection : Django.Connection)
    (django_field : Django.Field) : M unit :=
  raw_type <- lift (Django.db_type django_field connection) ;;
  upper_type <- lift (upper_method raw_type) ;;
  fields_append
    {| name := Django.name django_field;
       db_type := upper_type;
       description :=
         if negb (String.eqb (Django.verbose_name django_field)
                    (Py.replace "_" " " (Django.name django_field)))
         then Django.verbose_name django_field
         else "";
       primary_key := Django.primary_key django_field;
       foreign_key := has_relation (Django.remote_field django_field);
       choices := Django.choices django_field |} ;;
  when (negb (Django.primary_key django_field) && Django.db_index django_field)
    (db_indexes_append (Django.name django_field)) ;;
  when (negb (Django.primary_key django_field) && Django.unique django_field)
    (unique_constraints_append (Django.name django_field)).

Ltac unfold_monad :=
  unfold bind, lift, gets, modify, when, ret, fields_append, db_indexes_append,
    unique_constraints_append, fields_sort, set_fields, set_db_indexes,
    set_unique_constraints in *.

(** The two sorts of [_load], in the order they run. *)
Definition ordered (fs : list Field) : list Field :=
  Py.sort primary_key true (Py.sort foreign_key true fs).

(** ** The renderers, as pure functions *)

Definition index_row (index : string) : string :=
  "| index | " +++ Py.replace "," ", " index +++ " | |" +++ Py.nl.

Definition unique_row (unique_constraint : string) : string :=
  "| unique | " +++ Py.replace "," ", " unique_constraint +++ " | |" +++ Py.nl.

Definition schema_head (self : ModelDescriptor) : string :=
  "## " +++ Django.db_table (_meta self) +++ Py.nl
  +++ _model_description self +++ Py.nl +++ Py.nl
  +++ "#### schema" +++ Py.nl
  +++ "| field_name | type | description |" +++ Py.nl +++ "|---|---|---|" +++ Py.nl.

Definition info_head : string :=
  Py.nl +++ Py.nl
  +++ "#### additional info" +++ Py.nl
  +++ "| type | value | description |" +++ Py.nl +++ "|---|---|---|" +++ Py.nl.

Definition markdown_text (self : ModelDescriptor) : string :=
  schema_head self
  +++ cat (map markdown_repr (_fields self))
  +++ info_head
  +++ cat (map index_row (_db_indexes self))
  +++ cat (map unique_row (_unique_constraints self)).

Definition is_key (f : Field) : bool := primary_key f || foreign_key f.

Definition separator : string := Py.tab +++ "--" +++ Py.nl.

Definition entity_head (self : ModelDescriptor) : string :=
  "entity " +++ Django.db_table (_meta self) +++ " {" +++ Py.nl.

(** The first loop of [plantuml_entity], from position [i] on. *)
Definition last_key_index (i : nat) (fields : list Field) (last : option nat) : option nat :=
  fold_left (fun last (p : nat * Field) =>
               let (i, f) := p in
               if primary_key f || foreign_key f then Some i else last)
    (combine (seq i (length fields)) fields) last.

(** The text added by the second loop, from position [i] on. *)
Fixpoint entity_body (last : option nat) (i : nat) (fields : list Field) : string :=
  match fields with
  | [] => ""
  | field :: rest =>
      plantuml_entity_repr field
      +++ (if option_nat_eqb (Some i) last then separator else "")
      +++ entity_body last (S i) rest
  end.

Definition plantuml_text (self : ModelDescriptor) : string :=
  entity_head self
  +++ entity_body (last_key_index 0 (_fields self) None) 0 (_fields self)
  +++ "}" +++ Py.nl.

(** ** A worked example: the [orders] table *)

Module Example.

Definition shop : Django.Connection :=
  {| Django.alias := "shop"; Django.vendor := "mysql" |}.

Definition connections : Django.ConnectionHandler := [("shop", shop)].

Definition column (name type label : string) (pk : bool)
    (relation : option string) (indexed unique : bool) : Django.Field :=
  {| Django.name := name;
     Django.db_type := fun _ => inr (Some type);
     Django.verbose_name := label;
     Django.primary_key := pk;
     Django.remote_field := Some relation;
     Django.db_index := indexed;
     Django.unique := unique;
     Django.choices := None |}.

(** Columns declared in the order [status], [customer_id], [id]. *)
Definition orders : Django.Model :=
  {| Django._meta :=
       {| Django.app_label := "shop";
          Django.db_table := "orders";
          Django.fields :=
            [ column "status" "varchar(20)" "status" false None false true;
              column "customer_id" "bigint" "customer id" false (Some "customer") true false;
              column "id" "bigint" "ID" true None false true ];
          Django.index_together := [["status"; "customer_id"]];
          Django.unique_together := [] |};
     Django.__doc__ := "Customer order header" |}.

Definition f_id : Field :=
  {| name := "id"; db_type := "BIGINT"; description := "ID";
     primary_key := true; foreign_key := false; choices := None |}.

Definition f_customer : Field :=
  {| name := "customer_id"; db_type := "BIGINT"; description := "";
     primary_key := false; foreign_key := true; choices := None |}.

Definition f_status : Field :=
  {| name := "status"; db_type := "VARCHAR(20)"; description := "";
     primary_key := false; foreign_key := false; choices := None |}.

Definition orders_descriptor : ModelDescriptor :=
  {| _meta := Django._meta orders;
     _model_description := "Customerorderheader";
     _fields := [f_id; f_customer; f_status];
     _db_indexes := ["customer_id"; "status,customer_id"];
     _unique_constraints := ["status"] |}.

End Example.

(** ** Vocabulary of the properties *)

(** The field has exactly these two flags. *)
Definition same_flags (pk fk : bool) (f : Field) : bool :=
  Bool.eqb (primary_key f) pk && Bool.eqb (foreign_key f) fk.

(** The outcome of [django_field.db_type(connection).upper()]. *)
Definition resolve_type (connection : Django.Connection)
    (django_field : Django.Field) : Py.exn + string :=
  match Django.db_type django_field connection with
  | inl e => inl e
  | inr raw_type => upper_method raw_type
  end.

(** The constructor raised an exception of class [cls]. *)
Definition fails_with (cls : string) (r : Py.exn + ModelDescriptor) : Prop :=
  exists e, r = inl e /\ Py.exn_class e = cls.

Definition none_has_no_upper : Py.exn :=
  Py.AttributeError "'NoneType' object has no attribute 'upper'".

Module ExampleUntyped.

(** A table whose second column has no resolvable column type. *)
Definition payload : Django.Field :=
  {| Django.name := "payload";
     Django.db_type := fun _ => inr None;
     Django.verbose_name := "payload";
     Django.primary_key := false;
     Django.remote_field := Some None;
     Django.db_index := false;
     Django.unique := false;
     Django.choices := None |}.

Definition events : Django.Model :=
  {| Django._meta :=
       {| Django.app_label := "shop";
          Django.db_table := "events";
          Django.fields :=
            [ Example.column "id" "bigint" "ID" true None false true; payload ];
          Django.index_together := [];
          Django.unique_together := [] |};
     Django.__doc__ := "Event log" |}.

End ExampleUntyped.

(** The ASCII whitespace characters ([string.whitespace]): space, tab, line
    feed, carriage return, vertical tab, form feed. *)
Definition is_whitespace (c : ascii) : bool :=
  let n := nat_of_ascii c in
  (n =? 32)%nat || (n =? 9)%nat || (n =? 10)%nat
  || (n =? 13)%nat || (n =? 11)%nat || (n =? 12)%nat.

(** The text with all whitespace and line breaks removed. *)
Definition remove_whitespace (s : string) : string :=
  filter_chars (fun c => negb (is_whitespace c)) s.

(** The characters the constructor keeps: all but the space and the line
    feed. *)
Definition kept_in_description (c : ascii) : bool :=
  negb (Ascii.eqb c " ") && negb (Ascii.eqb c Py.LF).

Module ExampleTabbed.

(** A docstring whose two words are separated by a tab. *)
Definition doc : string := "Audit" +++ Py.tab +++ "trail of an order".

Definition audit : Django.Model :=
  {| Django._meta :=
       {| Django.app_label := "shop";
          Django.db_table := "audit";
          Django.fields := [ Example.column "id" "bigint" "ID" true None false true ];
          Django.index_together := [];
          Django.unique_together := [] |};
     Django.__doc__ := doc |}.

Definition audit_descriptor : ModelDescriptor :=
  {| _meta := Django._meta audit;
     _model_description := "Audit" +++ Py.tab +++ "trailofanorder";
     _fields := [ Example.f_id ];
     _db_indexes := [];
     _unique_constraints := [] |}.

End ExampleTabbed.

(** The column name with every underscore replaced by a space. *)
Definition spaced_name (c : Django.Field) : string :=
  subst_char "_" " " (Django.name c).

Module ExampleUnlabelled.

(** A column whose verbose label is the empty string. *)
Definition note : Django.Field :=
  Example.column "note" "text" "" false None false false.

Definition memo : Django.Model :=
  {| Django._meta :=
       {| Django.app_label := "shop";
          Django.db_table := "memo";
          Django.fields := [ note ];
          Django.index_together := [];
          Django.unique_together := [] |};
     Django.__doc__ := "Memo" |}.

Definition f_note : Field :=
  {| name := "note"; db_type := "TEXT"; description := "";
     primary_key := false; foreign_key := false; choices := None |}.

Definition memo_descriptor : ModelDescriptor :=
  {| _meta := Django._meta memo;
     _model_description := "Memo";
     _fields := [ f_note ];
     _db_indexes := [];
     _unique_constraints := [] |}.

End ExampleUnlabelled.

(** The text holds no comma. *)
Definition comma_free (s : string) : bool := negb (occurs "," s).

Module ExampleEmpty.

(** A table without columns. *)
Definition blank : Django.Model :=
  {| Django._meta :=
       {| Django.app_label := "shop";
          Django.db_table := "blank";
          Django.fields := [];
          Django.index_together := [];
          Django.unique_together := [] |};
     Django.__doc__ := "Nothing yet" |}.

Definition blank_descriptor : ModelDescriptor :=
  {| _meta := Django._meta blank;
     _model_description := "Nothingyet";
     _fields := [];
     _db_indexes := [];
     _unique_constraints := [] |}.

End ExampleEmpty.

(** The field with its [choices] forgotten. *)
Definition erase_choices (f : Field) : Field :=
  {| name := name f;
     db_type := db_type f;
     description := description f;
     primary_key := primary_key f;
     foreign_key := foreign_key f;
     choices := None |}.

(** The column with its [choices] forgotten. *)
Definition forget_choices (c : Django.Field) : Django.Field :=
  {| Django.name := Django.name c;
     Django.db_type := Django.db_type c;
     Django.verbose_name := Django.verbose_name c;
     Django.primary_key := Django.primary_key c;
     Django.remote_field := Django.remote_field c;
     Django.db_index := Django.db_index c;
     Django.unique := Django.unique c;
     Django.choices := None |}.

(** Two models that differ at most in the [choices] of their columns. *)
Definition same_but_choices (m1 m2 : Django.Model) : Prop :=
  Django.__doc__ m1 = Django.__doc__ m2 /\
  Django.app_label (Django._meta m1) = Django.app_label (Django._meta m2) /\
  Django.db_table (Django._meta m1) = Django.db_table (Django._meta m2) /\
  Django.index_together (Django._meta m1) = Django.index_together (Django._meta m2) /\
  Django.unique_together (Django._meta m1) = Django.unique_together (Django._meta m2) /\
  map forget_choices (Django.fields (Django._meta m1))
  = map forget_choices (Django.fields (Django._meta m2)).

Module ExampleChoices.

Definition f_status_choices : Field :=
  {| name := "status"; db_type := "VARCHAR(20)"; description := "";
     primary_key := false; foreign_key := false;
     choices := Some [("N", "new"); ("P", "paid")] |}.

Definition orders_descriptor : ModelDescriptor :=
  {| _meta := Django._meta Example.orders;
     _model_description := "Customerorderheader";
     _fields := [Example.f_id; Example.f_customer; f_status_choices];
     _db_indexes := ["customer_id"; "status,customer_id"];
     _unique_constraints := ["status"] |}.

End ExampleChoices.

(** A field line of the entity block, without its line feed. *)
Definition plantuml_entity_line (f : Field) : string :=
  Py.tab +++ name f +++ ": " +++ (if primary_key f then "PK, " else "")
  +++ (if foreign_key f then "FK, " else "") +++ db_type f.

Definition separator_line : string := Py.tab +++ "--".

Definition entity_head_line (self : ModelDescriptor) : string :=
  "entity " +++ Django.db_table (_meta self) +++ " {".

Definition single_line (s : string) : bool := negb (occurs Py.LF s).

(** The table name and the names and types of the fields hold no line feed. *)
Definition single_line_names (self : ModelDescriptor) : bool :=
  single_line (Django.db_table (_meta self))
  && forallb (fun f => single_line (name f) && single_line (db_type f)) (_fields self).

(** A row of the schema table, of the index rows and of the uniqueness
    rows, without its line feed. *)
Definition markdown_line (f : Field) : string :=
  "| " +++ name f +++ " "
  +++ "| " +++ (if primary_key f then "PK, " else "")
  +++ (if foreign_key f then "FK, " else "") +++ db_type f +++ " "
  +++ "| " +++ description f +++ " |".

Definition index_line (index : string) : string :=
  "| index | " +++ Py.replace "," ", " index +++ " | |".

Definition unique_line (unique_constraint : string) : string :=
  "| unique | " +++ Py.replace "," ", " unique_constraint +++ " | |".

(** No text the markdown renderer copies holds a line feed. *)
Definition markdown_single_line (self : ModelDescriptor) : bool :=
  single_line (Django.db_table (_meta self))
  && single_line (_model_description self)
  && forallb (fun f => single_line (name f) && single_line (db_type f)
                       && single_line (description f)) (_fields self)
  && forallb single_line (_db_indexes self)
  && forallb single_line (_unique_constraints self).



Module ExampleUnordered.

(** A descriptor whose field list is not in constructor order. *)
Definition shuffled : ModelDescriptor :=
  {| _meta := Django._meta Example.orders;
     _model_description := "Customerorderheader";
     _fields := [Example.f_status; Example.f_id; Example.f_customer; Example.f_status];
     _db_indexes := [];
     _unique_constraints := [] |}.

End ExampleUnordered.

(** ** [orm_query_utils.py] *)

Module Orm.

(** The exceptions of the query diagnostics.  [Raised] is an exception of
    the decorated function or of an external call; [Unmodelled] marks a
    format string that leaves the fragment of [str.format] embedded here. *)
Inductive exn : Type :=
| AssertionError
| IndexError
| ValueError (msg : string)
| NotImplementedError (msg : string)
| Raised (cls : string) (msg : string)
| Unmodelled (what : string).

(** One entry of [connection.queries]: a dict with the keys ['sql'] and
    ['time']. *)
Record Query : Type := {
  sql : string;
  time : string
}.

(** The attributes of a connection the diagnostics read. *)
Record Connection : Type := {
  display_name : string;
  queries : list Query
}.

(** A query parameter, with the text [str(p)] gives for it. *)
Inductive Param : Type :=
| DateParam (text : string)
| DecimalParam (text : string)
| OtherParam (text : string).

(** What lies outside the repository: [DjangoConfig.DEBUG],
    [sqlparse.format(q, reindent=True, keyword_case="upper")] and the
    sequence of parameters [eval(params_string)] yields (or the exception
    of evaluating or iterating it). *)
Record Env : Type := {
  DEBUG : bool;
  sqlparse_format : string -> string;
  eval_params : string -> exn + list Param
}.

(** Standard output and the connection handler [connections]. *)
Record World : Type := {
  stdout : string;
  connections : list (string * Connection)
}.

(** A call either returns or raises; what it printed before stays. *)
Definition IO (A : Type) : Type := World -> (exn + A) * World.

Definition ret {A : Type} (a : A) : IO A := fun w => (inr a, w).

Definition bind {A B : Type} (m : IO A) (k : A -> IO B) : IO B :=
  fun w =>
    match m w with
    | (inl e, w') => (inl e, w')
    | (inr a, w') => k a w'
    end.

Definition raise {A : Type} (e : exn) : IO A := fun w => (inl e, w).

Definition lift {A : Type} (r : exn + A) : IO A :=
  fun w => (r, w).

Declare Scope io_scope.
Delimit Scope io_scope with io.
Notation "x <- m ;; k" := (bind m (fun x => k))
  (at level 61, m at next level, right associativity) : io_scope.
Notation "m ;; k" := (bind m (fun _ => k))
  (at level 61, right associativity) : io_scope.

Fixpoint for_each {A : Type} (l : list A) (body : A -> IO unit) : IO unit :=
  match l with
  | [] => ret tt
  | x :: t => (body x ;; for_each t body)%io
  end.

(** [print(x, end=end_)] *)
Definition print (x end_ : string) : IO unit :=
  fun w => (inr tt, {| stdout := stdout w +++ x +++ end_;
                       connections := connections w |}).

(** [assert cond] *)
Definition assert (cond : bool) : IO unit :=
  if cond then ret tt else raise AssertionError.

(** [l[i]] with Python's negative indexes. *)
Definition list_getitem {A : Type} (l : list A) (i : Z) : exn + A :=
  let n := Z.of_nat (length l) in
  let j := if (i <? 0)%Z then (i + n)%Z else i in
  if ((0 <=? j)%Z && (j <? n)%Z)%bool
  then match nth_error l (Z.to_nat j) with
       | Some x => inr x
       | None => inl IndexError
       end
  else inl IndexError.

(** [range(start, stop, -1)] *)
Definition range_down (start stop : Z) : list Z :=
  map (fun k => (start - Z.of_nat k)%Z) (seq 0 (Z.to_nat (start - stop))).

(** [s.find(sub)], counting from position [i]. *)
Fixpoint find_from (sub s : string) (i : nat) : option nat :=
  if String.prefix sub s then Some i
  else match s with
       | EmptyString => None
       | String _ s' => find_from sub s' (S i)
       end.

Definition str_find (s sub : string) : Z :=
  match find_from sub s 0 with
  | Some i => Z.of_nat i
  | None => (-1)%Z
  end.

Fixpoint drop (n : nat) (s : string) : string :=
  match n, s with
  | O, _ => s
  | S _, EmptyString => EmptyString
  | S k, String _ s' => drop k s'
  end.

(** [s[start:]] *)
Definition slice_from (s : string) (start : Z) : string :=
  let n := Z.of_nat (String.length s) in
  let k := if (start <? 0)%Z then Z.max 0 (start + n) else start in
  drop (Z.to_nat k) s.

(** [s.strip(chars)] for a one-character [chars]. *)
Fixpoint lstrip (c : ascii) (s : string) : string :=
  match s with
  | EmptyString => EmptyString
  | String d s' => if Ascii.eqb d c then lstrip c s' else s
  end.

Fixpoint rstrip (c : ascii) (s : string) : string :=
  match s with
  | EmptyString => EmptyString
  | String d s' =>
      match rstrip c s' with
      | EmptyString => if Ascii.eqb d c then EmptyString else String d EmptyString
      | r => String d r
      end
  end.

Definition strip (c : ascii) (s : string) : string := rstrip c (lstrip c s).

Definition quote : ascii := ascii_of_nat 39.

(** [re.compile("'[^']*'").findall(s)]: the non-overlapping quoted pieces,
    left to right, quotes included.  [open] holds the text read since an
    opening quote; a quote never closed gives no match. *)
Fixpoint findall_quoted (open : option string) (s : string) : list string :=
  match s with
  | EmptyString => []
  | String c s' =>
      match open with
      | None =>
          if Ascii.eqb c quote then findall_quoted (Some EmptyString) s'
          else findall_quoted None s'
      | Some body =>
          if Ascii.eqb c quote
          then (String quote (body +++ String quote EmptyString))
               :: findall_quoted None s'
          else findall_quoted (Some (body +++ String c EmptyString)) s'
      end
  end.

(** Where the scan of a format string stands. *)
Inductive FormatState : Type :=
| Plain
| AfterOpen
| AfterClose.

(** [s.format] with positional arguments on format strings whose replacement fields are all
    the empty field [{}]: doubled braces give one brace, [{}] takes the
    next argument, a single brace raises [ValueError], a missing argument
    raises [IndexError].  Any other replacement field is [Unmodelled]. *)
Fixpoint format_from (state : FormatState) (s : string) (args : list string)
    : exn + string :=
  match s with
  | EmptyString =>
      match state with
      | Plain => inr EmptyString
      | AfterOpen => inl (ValueError "Single '{' encountered in format string")
      | AfterClose => inl (ValueError "Single '}' encountered in format string")
      end
  | String c s' =>
      match state with
      | Plain =>
          if Ascii.eqb c "{" then format_from AfterOpen s' args
          else if Ascii.eqb c "}" then format_from AfterClose s' args
          else match format_from Plain s' args with
               | inl e => inl e
               | inr r => inr (String c r)
               end
      | AfterOpen =>
          if Ascii.eqb c "{" then
            match format_from Plain s' args with
            | inl e => inl e
            | inr r => inr (String "{" r)
            end
          else if Ascii.eqb c "}" then
            match args with
            | [] => inl IndexError
            | a :: rest =>
                match format_from Plain s' rest with
                | inl e => inl e
                | inr r => inr (a +++ r)
                end
            end
          else inl (Unmodelled "replacement field")
      | AfterClose =>
          if Ascii.eqb c "}" then
            match format_from Plain s' args with
            | inl e => inl e
            | inr r => inr (String "}" r)
            end
          else inl (ValueError "Single '}' encountered in format string")
      end
  end.

Definition format (s : string) (args : list string) : exn + string :=
  format_from Plain s args.

(** [_build_sql_with_params]: the text of one parameter. *)
Definition sanitize (p : Param) : string :=
  match p with
  | DateParam text => "'" +++ text +++ "'"
  | DecimalParam text => text
  | OtherParam text => text
  end.

Definition _build_sql_with_params (query_string : string) (params : list Param)
    : exn + string :=
  let sanitized_params :=
    fold_left (fun acc p => acc ++ [sanitize p]) params [] in
  format query_string sanitized_params.

(** [connection.queries[-last_n]['sql']] *)
Definition last_sql (connection : Connection) (last_n : Z) : exn + string :=
  match list_getitem (queries connection) (- last_n)%Z with
  | inl e => inl e
  | inr q => inr (sql q)
  end.

Definition _print_last_n_sql_for_mysql (env : Env) (connection : Connection)
    (last_n : Z) (pretty_print : bool) : IO unit :=
  (query_data <- lift (last_sql connection last_n) ;;
   if pretty_print
   then print (sqlparse_format env query_data) Py.nl
   else print query_data Py.nl)%io.

Definition param_prefix : string := " - PARAMS = ".

Definition _print_last_n_sql_for_sql_server (env : Env) (connection : Connection)
    (last_n : Z) (pretty_print : bool) : IO unit :=
  (query_data <- lift (last_sql connection last_n) ;;
   first_quoted <- lift (list_getitem (findall_quoted None query_data) 0) ;;
   let query_string := Py.replace "%s" "{}" (strip quote first_quoted) in
   let params_string :=
     slice_from query_data
       (str_find query_data param_prefix + Z.of_nat (String.length param_prefix))%Z in
   params <- lift (eval_params env params_string) ;;
   sql_with_params <- lift (_build_sql_with_params query_string params) ;;
   if pretty_print
   then print (sqlparse_format env sql_with_params) Py.nl
   else print sql_with_params Py.nl)%io.

Definition print_last_n_sql (env : Env) (connection : Connection)
    (last_n : Z) (pretty_print : bool) : IO unit :=
  (assert (1 <=? last_n)%Z ;;
   if String.eqb (display_name connection) "MySQL"
   then _print_last_n_sql_for_mysql env connection last_n pretty_print
   else if String.eqb (display_name connection) "SQL Server"
   then _print_last_n_sql_for_sql_server env connection last_n pretty_print
   else raise (NotImplementedError
                 ("vendor " +++ display_name connection +++ " not implemented")))%io.

Definition print_latest_n_sqls (env : Env) (connection : Connection)
    (last_n : Z) (pretty_print : bool) : IO unit :=
  (assert (1 <=? last_n)%Z ;;
   for_each (range_down last_n 0) (fun i =>
     print_last_n_sql env connection i pretty_print ;;
     print "" (Py.nl +++ Py.nl)))%io.

(** [connections[name]] *)
Definition connections_getitem (name : string) : IO Connection :=
  fun w =>
    match List.find (fun entry => String.eqb (fst entry) name) (connections w) with
    | Some entry => (inr (snd entry), w)
    | None => (inl (Raised "ConnectionDoesNotExist" name), w)
    end.

(** [reset_queries()]: the query log of every connection is cleared. *)
Definition reset_queries : IO unit :=
  fun w =>
    (inr tt,
     {| stdout := stdout w;
        connections :=
          map (fun entry =>
                 (fst entry,
                  {| display_name := display_name (snd entry); queries := [] |}))
            (connections w) |}).

(** A call of the function [debug_print_queries(func)] returns: [func] stands for the
    decorated function applied to its arguments, [func_name] for
    [func.__name__]. *)
Definition debug_print_queries {R : Type} (env : Env) (func_name : string)
    (func : IO R) : IO R :=
  (res <- func ;;
   (if DEBUG env then
      print ("function: " +++ func_name +++ Py.nl +++ "----------------" +++ Py.nl)
        Py.nl ;;
      names <- (fun w => (inr (map fst (connections w)), w)) ;;
      for_each names (fun name =>
        connection <- connections_getitem name ;;
        let query_log_size := Z.of_nat (length (queries connection)) in
        if (0 <? query_log_size)%Z
        then connection' <- connections_getitem name ;;
             print_latest_n_sqls env connection' query_log_size true
        else ret tt) ;;
      print (Py.nl +++ "----------------" +++ Py.nl) Py.nl ;;
      reset_queries
    else ret tt) ;;
   ret res)%io.

End Orm.

(** ** Vocabulary of the diagnostics properties *)

(** The world after [text] went to standard output. *)
Definition printed (w : Orm.World) (text : string) : Orm.World :=
  {| Orm.stdout := Orm.stdout w +++ text;
     Orm.connections := Orm.connections w |}.

(** A query text as it is printed, pretty or raw. *)
Definition shown (env : Orm.Env) (pretty_print : bool) (query : string) : string :=
  if pretty_print then Orm.sqlparse_format env query else query.

(** What [print_latest_n_sqls] writes for one query: the text, its line
    feed, and the two line feeds of the empty [print]. *)
Definition query_block (env : Orm.Env) (pretty_print : bool) (q : Orm.Query) : string :=
  shown env pretty_print (Orm.sql q) +++ Py.nl +++ Py.nl +++ Py.nl.

Definition query_dump (env : Orm.Env) (pretty_print : bool)
    (qs : list Orm.Query) : string :=
  cat (map (query_block env pretty_print) qs).

(** The vendor is one of the two the diagnostics know. *)
Definition supported (c : Orm.Connection) : bool :=
  String.eqb (Orm.display_name c) "MySQL"
  || String.eqb (Orm.display_name c) "SQL Server".

Definition not_implemented (c : Orm.Connection) : Orm.exn :=
  Orm.NotImplementedError ("vendor " +++ Orm.display_name c +++ " not implemented").

(** The two frames the decorator writes, each with the line feed of its
    [print]. *)
Definition debug_header (func_name : string) : string :=
  ("function: " +++ func_name +++ Py.nl +++ "----------------" +++ Py.nl) +++ Py.nl.

Definition debug_footer : string :=
  (Py.nl +++ "----------------" +++ Py.nl) +++ Py.nl.

(** The handler with every query log emptied. *)
Definition cleared (conns : list (string * Orm.Connection))
    : list (string * Orm.Connection) :=
  map (fun entry =>
         (fst entry,
          {| Orm.display_name := Orm.display_name (snd entry);
             Orm.queries := [] |}))
    conns.

(** What the decorator writes for the connections [conns]. *)
Definition connections_dump (env : Orm.Env)
    (conns : list (string * Orm.Connection)) : string :=
  cat (map (fun entry => query_dump env true (Orm.queries (snd entry))) conns).

(** The body of the decorator's loop over the connection names. *)
Definition dump_step (env : Orm.Env) (name : string) : Orm.IO unit :=
  Orm.bind (Orm.connections_getitem name) (fun connection =>
    let query_log_size := Z.of_nat (length (Orm.queries connection)) in
    if (0 <? query_log_size)%Z
    then Orm.bind (Orm.connections_getitem name) (fun connection' =>
           Orm.print_latest_n_sqls env connection' query_log_size true)
    else Orm.ret tt).

(** The text holds no brace. *)
Definition brace_free (s : string) : bool :=
  negb (occurs "{" s) && negb (occurs "}" s).

(** The pieces [parts] with the arguments put between them, in order;
    arguments left over are not used. *)
Fixpoint weave (parts args : list string) : string :=
  match parts with
  | [] => ""
  | p :: ps =>
      match ps, args with
      | [], _ => p
      | _ :: _, a :: rest => p +++ a +++ weave ps rest
      | _ :: _, [] => p
      end
  end.

(** The text has no [%s] in it. *)
Fixpoint no_placeholder (s : string) : bool :=
  match s with
  | EmptyString => true
  | String c s' =>
      negb (Ascii.eqb c "%"
            && match s' with
               | String d _ => Ascii.eqb d "s"
               | EmptyString => false
               end)
      && no_placeholder s'
  end.

(** A piece of SQL text between two placeholders: no quote, no brace, no
    placeholder of its own. *)
Definition sql_piece (p : string) : bool :=
  negb (occurs Orm.quote p) && brace_free p && no_placeholder p.

(** How often the character occurs in the text. *)
Fixpoint count_char (c : ascii) (s : string) : nat :=
  match s with
  | EmptyString => 0
  | String d s' => (if Ascii.eqb d c then 1 else 0) + count_char c s'
  end.

(** The marker of the parameters without its last character. *)
Definition param_prefix_init : string := " - PARAMS =".

(** The marker of the parameters does not occur in the text, not even
    when the text is followed by the marker itself. *)
Definition marker_free (s : string) : bool :=
  match Orm.find_from Orm.param_prefix (s +++ param_prefix_init) 0 with
  | Some _ => false
  | None => true
  end.

Module ExampleOrm.

Definition env : Orm.Env :=
  {| Orm.DEBUG := true;
     Orm.sqlparse_format := Py.upper;
     Orm.eval_params := fun _ =>
       inr [Orm.OtherParam "7"; Orm.DateParam "2020-01-31"] |}.

Definition query (text : string) : Orm.Query :=
  {| Orm.sql := text; Orm.time := "0.001" |}.

Definition mysql : Orm.Connection :=
  {| Orm.display_name := "MySQL";
     Orm.queries := [query "select 1"; query "select 2"; query "select 3"] |}.

Definition idle : Orm.Connection :=
  {| Orm.display_name := "MySQL"; Orm.queries := [] |}.

Definition oracle : Orm.Connection :=
  {| Orm.display_name := "Oracle"; Orm.queries := [query "select 1 from dual"] |}.

Definition world : Orm.World :=
  {| Orm.stdout := "log:";
     Orm.connections := [("default", mysql); ("replica", idle)] |}.

(** A SQL Server log entry in the form [QUERY = '...' - PARAMS = (...)]. *)
Definition mssql : Orm.Connection :=
  {| Orm.display_name := "SQL Server";
     Orm.queries :=
       [query "QUERY = 'select * from t where id = %s and day = %s' - PARAMS = (7, datetime.date(2020, 1, 31))"] |}.

(** A SQL Server log entry without any quoted text. *)
Definition mssql_bare : Orm.Connection :=
  {| Orm.display_name := "SQL Server";
     Orm.queries := [query "select 1 - PARAMS = ()"] |}.



Definition world_with_oracle : Orm.World :=
  {| Orm.stdout := "";
     Orm.connections := [("default", mysql); ("legacy", oracle); ("replica", idle)] |}.

End ExampleOrm.

(** * Properties *)

(** ** Strings: concatenation and character substitution *)

Section StringFacts.

Lemma append_nil_r (s : string) : s +++ "" = s.
Proof. induction s as [|c s IH]; simpl; [reflexivity | now rewrite IH]. Qed.

Lemma append_assoc (a b c : string) : (a +++ b) +++ c = a +++ (b +++ c).
Proof. induction a as [|x a IH]; simpl; [reflexivity | now rewrite IH]. Qed.

Lemma append_length (a b : string) :
  String.length (a +++ b) = String.length a + String.length b.
Proof. induction a as [|x a IH]; simpl; [reflexivity | now rewrite IH]. Qed.

Lemma cat_cons (p : string) (ps : list string) : cat (p :: ps) = p +++ cat ps.
Proof.
  unfold cat; destruct ps as [|q ps]; simpl; [now rewrite append_nil_r | reflexivity].
Qed.

Lemma cat_app (ps qs : list string) : cat (ps ++ qs) = cat ps +++ cat qs.
Proof.
  induction ps as [|p ps IH]; [reflexivity|].
  change ((p :: ps) ++ qs) with (p :: (ps ++ qs)).
  now rewrite !cat_cons, IH, append_assoc.
Qed.

(** A loop [for x in l: acc += f(x)] appends the pieces in order. *)
Lemma fold_left_append {A : Type} (f : A -> string) (l : list A) (acc : string) :
  fold_left (fun acc x => acc +++ f x) l acc = acc +++ cat (map f l).
Proof.
  revert acc; induction l as [|x l IH]; intros acc.
  - simpl. now rewrite append_nil_r.
  - change (map f (x :: l)) with (f x :: map f l).
    rewrite cat_cons. simpl. now rewrite IH, append_assoc.
Qed.

Lemma prefix_nil (s : string) : String.prefix "" s = true.
Proof. destruct s; reflexivity. Qed.

Lemma replace_char (c : ascii) (new s : string) :
  Py.replace (String c "") new s = subst_char c new s.
Proof.
  unfold Py.replace. induction s as [|d s IH]; [reflexivity|].
  cbn [Py.replace_from subst_char String.prefix String.length Nat.sub].
  destruct (ascii_dec c d) as [->|Hne].
  - rewrite prefix_nil, Ascii.eqb_refl. now rewrite IH.
  - assert (Ascii.eqb d c = false) as -> by (apply Ascii.eqb_neq; congruence).
    now rewrite IH.
Qed.

Lemma subst_char_app (c : ascii) (new a b : string) :
  subst_char c new (a +++ b) = subst_char c new a +++ subst_char c new b.
Proof.
  induction a as [|d a IH]; [reflexivity|]. simpl.
  destruct (Ascii.eqb d c); rewrite IH; [now rewrite append_assoc | reflexivity].
Qed.

Lemma occurs_app (c : ascii) (a b : string) :
  occurs c (a +++ b) = occurs c a || occurs c b.
Proof.
  induction a as [|d a IH]; [reflexivity|]. simpl. now rewrite IH, orb_assoc.
Qed.

Lemma subst_char_absent (c : ascii) (new s : string) :
  occurs c s = false -> subst_char c new s = s.
Proof.
  induction s as [|d s IH]; [reflexivity|]. simpl. intros H.
  apply orb_false_iff in H as [H1 H2]. now rewrite H1, IH.
Qed.

Lemma subst_char_empty (c : ascii) (s : string) :
  subst_char c "" s = filter_chars (fun d => negb (Ascii.eqb d c)) s.
Proof.
  induction s as [|d s IH]; [reflexivity|]. simpl.
  destruct (Ascii.eqb d c); simpl; now rewrite IH.
Qed.

Lemma filter_chars_twice (p q : ascii -> bool) (s : string) :
  filter_chars p (filter_chars q s) = filter_chars (fun d => q d && p d) s.
Proof.
  induction s as [|d s IH]; [reflexivity|]. simpl.
  destruct (q d); simpl; [destruct (p d)|]; now rewrite IH.
Qed.

Lemma occurs_filter_chars (keep : ascii -> bool) (c : ascii) (s : string) :
  keep c = false -> occurs c (filter_chars keep s) = false.
Proof.
  intros Hc. induction s as [|d s IH]; [reflexivity|]. simpl.
  destruct (keep d) eqn:Hd; [|exact IH]. simpl. rewrite IH, orb_false_r.
  apply Ascii.eqb_neq. congruence.
Qed.

End StringFacts.

(** ** The stable sort on boolean keys *)

Section SortFacts.

Context {A : Type}.
Variable key : A -> bool.

Lemma goes_before_irrefl (reverse : bool) (k : bool) :
  Py.goes_before reverse k k = false.
Proof. destruct reverse, k; reflexivity. Qed.

Lemma insert_perm (reverse : bool) (x : A) (l : list A) :
  Permutation (x :: l) (Py.insert key reverse x l).
Proof.
  induction l as [|y t IH]; simpl; [apply Permutation_refl|].
  destruct (Py.goes_before reverse (key y) (key x)).
  - eapply Permutation_trans; [apply perm_swap|]. now apply perm_skip.
  - apply Permutation_refl.
Qed.

Lemma sort_perm (reverse : bool) (l : list A) :
  Permutation l (Py.sort key reverse l).
Proof.
  induction l as [|x t IH]; simpl; [apply perm_nil|].
  eapply Permutation_trans; [apply perm_skip, IH | apply insert_perm].
Qed.

(** Stability: the elements of any class [g] inside which all keys are
    equal come out in the order they went in. *)
Lemma filter_insert (g : A -> bool) (reverse : bool) (x : A) (l : list A) :
  (forall a b, g a = true -> g b = true -> key a = key b) ->
  filter g (Py.insert key reverse x l) = filter g (x :: l).
Proof.
  intros Hg. induction l as [|y t IH]; [reflexivity|].
  cbn [Py.insert].
  destruct (Py.goes_before reverse (key y) (key x)) eqn:E; [|reflexivity].
  cbn [filter] in *. rewrite IH.
  destruct (g y) eqn:Gy, (g x) eqn:Gx; try reflexivity.
  rewrite (Hg y x Gy Gx), goes_before_irrefl in E. discriminate.
Qed.

Lemma filter_sort (g : A -> bool) (reverse : bool) (l : list A) :
  (forall a b, g a = true -> g b = true -> key a = key b) ->
  filter g (Py.sort key reverse l) = filter g l.
Proof.
  intros Hg. induction l as [|x t IH]; [reflexivity|].
  cbn [Py.sort]. rewrite filter_insert by exact Hg.
  cbn [filter]. now rewrite IH.
Qed.

(** With [reverse=True] the elements of key [True] come first. *)
Lemma insert_desc (x : A) (ts fs : list A) :
  Forall (fun a => key a = true) ts ->
  Forall (fun a => key a = false) fs ->
  Py.insert key true x (ts ++ fs) =
    if key x then x :: ts ++ fs else ts ++ x :: fs.
Proof.
  intros Hts Hfs. induction Hts as [|t ts Ht Hts IH].
  - simpl. destruct fs as [|f fs]; [now destruct (key x)|].
    simpl. inversion Hfs as [|? ? Hf _]; subst. rewrite Hf.
    now destruct (key x).
  - simpl. rewrite Ht. destruct (key x) eqn:Kx; simpl; [reflexivity|].
    rewrite IH. reflexivity.
Qed.

Lemma Forall_filter_true (p : A -> bool) (l : list A) :
  Forall (fun a => p a = true) (filter p l).
Proof.
  induction l as [|x l IH]; simpl; [constructor|].
  destruct (p x) eqn:E; [constructor|]; assumption.
Qed.

Lemma Forall_filter_false (p : A -> bool) (l : list A) :
  Forall (fun a => p a = false) (filter (fun a => negb (p a)) l).
Proof.
  induction l as [|x l IH]; simpl; [constructor|].
  destruct (p x) eqn:E; simpl; [|constructor]; assumption.
Qed.

Lemma sort_desc (l : list A) :
  Py.sort key true l = filter key l ++ filter (fun a => negb (key a)) l.
Proof.
  induction l as [|x t IH]; [reflexivity|].
  cbn [Py.sort]. rewrite IH, insert_desc
    by (apply Forall_filter_true || apply Forall_filter_false).
  cbn [filter]. destruct (key x); reflexivity.
Qed.

(** In a list made of a [True] run followed by a [False] run, nothing of
    key [False] stands before something of key [True]. *)
Lemma runs_order (ts fs l1 l2 l3 : list A) (x y : A) :
  Forall (fun a => key a = true) ts ->
  Forall (fun a => key a = false) fs ->
  ts ++ fs = l1 ++ x :: l2 ++ y :: l3 ->
  key y = true -> key x = true.
Proof.
  intros Hts Hfs. revert l1. induction Hts as [|t ts Ht Hts IH]; intros l1 E Ky.
  - simpl in E. subst fs. rewrite Forall_forall in Hfs.
    rewrite Hfs in Ky; [discriminate|].
    apply in_or_app; right; right. apply in_or_app; right; left; reflexivity.
  - destruct l1 as [|a l1]; simpl in E; injection E as E1 E2.
    + now subst.
    + now apply (IH l1).
Qed.

(** An element of key [False] and everything after it lie in the
    [False] run. *)
Lemma runs_tail (ts fs l1 rest : list A) (x : A) :
  Forall (fun a => key a = true) ts ->
  ts ++ fs = l1 ++ x :: rest ->
  key x = false ->
  exists l1', fs = l1' ++ x :: rest.
Proof.
  intros Hts. revert l1. induction Hts as [|t ts Ht Hts IH]; intros l1 E Kx.
  - now exists l1.
  - destruct l1 as [|a l1]; simpl in E; injection E as E1 E2.
    + subst. congruence.
    + now apply (IH l1).
Qed.

End SortFacts.

(** ** What the constructor computes *)

Section LoadFacts.

Variable connection : Django.Connection.

Lemma column_step_run (c : Django.Field) (self : ModelDescriptor) :
  column_step connection c self =
    match make_field connection c with
    | inl e => inl e
    | inr f =>
        inr (tt,
             {| _meta := _meta self;
                _model_description := _model_description self;
                _fields := _fields self ++ [f];
                _db_indexes := _db_indexes self ++ single_indexes [c];
                _unique_constraints := _unique_constraints self ++ single_uniques [c] |})
    end.
Proof.
  unfold column_step, make_field, single_indexes, single_uniques.
  unfold_monad.
  destruct (Django.db_type c connection) as [e|raw]; [reflexivity|].
  destruct (upper_method raw) as [e|up]; [reflexivity|].
  cbn [filter map].
  destruct (negb (Django.primary_key c) && Django.db_index c),
           (negb (Django.primary_key c) && Django.unique c);
    cbn [_meta _model_description _fields _db_indexes _unique_constraints map];
    rewrite ?app_nil_r; reflexivity.
Qed.

Lemma single_indexes_cons (c : Django.Field) (cs : list Django.Field) :
  single_indexes (c :: cs) = single_indexes [c] ++ single_indexes cs.
Proof.
  unfold single_indexes. cbn [filter].
  destruct (negb (Django.primary_key c) && Django.db_index c); reflexivity.
Qed.

Lemma single_uniques_cons (c : Django.Field) (cs : list Django.Field) :
  single_uniques (c :: cs) = single_uniques [c] ++ single_uniques cs.
Proof.
  unfold single_uniques. cbn [filter].
  destruct (negb (Django.primary_key c) && Django.unique c); reflexivity.
Qed.

(** The column loop: all columns are converted, or the first failure
    leaves the loop. *)
Lemma column_loop_run (columns : list Django.Field) (self : ModelDescriptor) :
  for_each columns (column_step connection) self =
    match make_fields connection columns with
    | inl e => inl e
    | inr fs =>
        inr (tt,
             {| _meta := _meta self;
                _model_description := _model_description self;
                _fields := _fields self ++ fs;
                _db_indexes := _db_indexes self ++ single_indexes columns;
                _unique_constraints := _unique_constraints self ++ single_uniques columns |})
    end.
Proof.
  revert self. induction columns as [|c cs IH]; intros self.
  - cbn. rewrite !app_nil_r. now destruct self.
  - cbn [for_each make_fields]. unfold bind at 1.
    rewrite column_step_run.
    destruct (make_field connection c) as [e|f]; [reflexivity|].
    rewrite IH. destruct (make_fields connection cs) as [e|fs]; [reflexivity|].
    cbn [_meta _model_description _fields _db_indexes _unique_constraints].
    rewrite (single_indexes_cons c cs), (single_uniques_cons c cs), <- !app_assoc.
    reflexivity.
Qed.

Lemma index_loop_run (groups : list (list string)) (self : ModelDescriptor) :
  for_each groups (fun g => db_indexes_append (Py.join "," g)) self =
    inr (tt, set_db_indexes (_db_indexes self ++ map (Py.join ",") groups) self).
Proof.
  revert self. induction groups as [|g gs IH]; intros self.
  - cbn. unfold set_db_indexes. rewrite app_nil_r. now destruct self.
  - cbn [for_each]. unfold bind at 1. unfold db_indexes_append at 1, modify.
    rewrite IH. unfold set_db_indexes.
    cbn [_meta _model_description _fields _db_indexes _unique_constraints map].
    now rewrite <- app_assoc.
Qed.

Lemma unique_loop_run (groups : list (list string)) (self : ModelDescriptor) :
  for_each groups (fun g => unique_constraints_append (Py.join "," g)) self =
    inr (tt, set_unique_constraints
               (_unique_constraints self ++ map (Py.join ",") groups) self).
Proof.
  revert self. induction groups as [|g gs IH]; intros self.
  - cbn. unfold set_unique_constraints. rewrite app_nil_r. now destruct self.
  - cbn [for_each]. unfold bind at 1. unfold unique_constraints_append at 1, modify.
    rewrite IH. unfold set_unique_constraints.
    cbn [_meta _model_description _fields _db_indexes _unique_constraints map].
    now rewrite <- app_assoc.
Qed.

End LoadFacts.

(** [__init__] in closed form. *)
Lemma init_run (connections : Django.ConnectionHandler) (model : Django.Model) :
  __init__ connections model =
    let meta := Django._meta model in
    match Django.connections_getitem connections (Django.app_label meta) with
    | inl e => inl e
    | inr connection =>
        match make_fields connection (Django.fields meta) with
        | inl e => inl e
        | inr fs =>
            inr {| _meta := meta;
                   _model_description :=
                     Py.replace Py.nl "" (Py.replace " " "" (Django.__doc__ model));
                   _fields := ordered fs;
                   _db_indexes :=
                     single_indexes (Django.fields meta) ++ composite_indexes meta;
                   _unique_constraints :=
                     single_uniques (Django.fields meta) ++ composite_uniques meta |}
        end
    end.
Proof.
  unfold __init__, _load. cbv zeta.
  unfold bind at 1. unfold gets at 1. cbn [_meta].
  unfold bind at 1. unfold lift at 1.
  destruct (Django.connections_getitem connections
              (Django.app_label (Django._meta model))) as [e|connection];
    [reflexivity|].
  unfold bind at 1.
  change (fun django_field : Django.Field => _) with (column_step connection).
  rewrite column_loop_run.
  destruct (make_fields connection (Django.fields (Django._meta model))) as [e|fs];
    [reflexivity|].
  cbn [_meta _model_description _fields _db_indexes _unique_constraints app].
  unfold bind at 1. unfold fields_sort at 1, modify at 1.
  unfold bind at 1. unfold fields_sort at 1, modify at 1.
  unfold bind at 1. rewrite index_loop_run. rewrite unique_loop_run.
  reflexivity.
Qed.

(** ** What the renderers compute *)

Section RenderFacts.

Lemma markdown_run (self : ModelDescriptor) :
  markdown self = inr (markdown_text self, self).
Proof.
  unfold markdown, markdown_text, bind, gets, ret. cbv zeta.
  unfold schema_head, info_head.
  rewrite !fold_left_append, !append_assoc. reflexivity.
Qed.

Lemma entity_loop (last : option nat) (fields : list Field) (i : nat) (acc : string) :
  fold_left (fun acc (p : nat * Field) =>
               let (i, field) := p in
               let acc := acc +++ plantuml_entity_repr field in
               if option_nat_eqb (Some i) last
               then acc +++ (Py.tab +++ "--" +++ Py.nl)
               else acc)
    (combine (seq i (length fields)) fields) acc
  = acc +++ entity_body last i fields.
Proof.
  revert i acc. induction fields as [|f rest IH]; intros i acc.
  - simpl. now rewrite append_nil_r.
  - cbn [length seq combine fold_left entity_body]. rewrite IH.
    fold separator.
    destruct (option_nat_eqb (Some i) last);
      now rewrite ?append_assoc.
Qed.

Lemma plantuml_run (self : ModelDescriptor) :
  plantuml_entity self = inr (plantuml_text self, self).
Proof.
  unfold plantuml_entity, plantuml_text, bind, gets, ret, Py.enumerate. cbv zeta.
  rewrite entity_loop. fold (entity_head self).
  unfold last_key_index. now rewrite !append_assoc.
Qed.

(** Positions of a non-key run leave the index found so far alone. *)
Lemma last_key_index_plain (ns : list Field) (i : nat) (last : option nat) :
  Forall (fun f => is_key f = false) ns ->
  last_key_index i ns last = last.
Proof.
  intros H. revert i. induction H as [|f ns Hf _ IH]; intros i; [reflexivity|].
  unfold last_key_index in *. cbn [length seq combine fold_left].
  unfold is_key in Hf. rewrite Hf. apply IH.
Qed.

(** A key run followed by a non-key run: the index found is the last
    position of the key run. *)
Lemma last_key_index_runs (ks ns : list Field) (i : nat) (last : option nat) :
  Forall (fun f => is_key f = true) ks ->
  Forall (fun f => is_key f = false) ns ->
  last_key_index i (ks ++ ns) last =
    match ks with
    | [] => last
    | _ :: _ => Some (i + length ks - 1)
    end.
Proof.
  intros Hk Hn. revert i last.
  induction Hk as [|k ks Hk _ IH]; intros i last.
  - now apply last_key_index_plain.
  - change ((k :: ks) ++ ns) with (k :: (ks ++ ns)).
    unfold last_key_index in *. cbn [length seq combine fold_left].
    unfold is_key in Hk. rewrite Hk. rewrite IH.
    destruct ks as [|k' ks']; cbn [length]; f_equal; lia.
Qed.

Lemma entity_body_plain (last : option nat) (fields : list Field) (i : nat) :
  (forall j, i <= j < i + length fields -> option_nat_eqb (Some j) last = false) ->
  entity_body last i fields = cat (map plantuml_entity_repr fields).
Proof.
  revert i. induction fields as [|f rest IH]; intros i H; [reflexivity|].
  cbn [entity_body map]. rewrite cat_cons.
  rewrite H by (cbn [length]; lia). cbn [String.append].
  rewrite IH; [reflexivity|].
  intros j Hj. apply H. cbn [length]. lia.
Qed.

Lemma entity_body_runs (ks ns : list Field) (i : nat) :
  ks <> [] ->
  entity_body (Some (i + length ks - 1)) i (ks ++ ns) =
    cat (map plantuml_entity_repr ks) +++ separator
    +++ cat (map plantuml_entity_repr ns).
Proof.
  revert i. induction ks as [|k ks IH]; intros i Hne; [congruence|].
  change ((k :: ks) ++ ns) with (k :: (ks ++ ns)).
  cbn [entity_body map]. rewrite cat_cons, append_assoc. f_equal.
  destruct ks as [|k' ks'].
  - cbn [length app]. replace (i + 1 - 1) with i by lia.
    cbn [option_nat_eqb]. rewrite Nat.eqb_refl.
    change (cat (map plantuml_entity_repr [])) with "".
    cbn [String.append]. rewrite entity_body_plain; [reflexivity|].
    intros j Hj. cbn [option_nat_eqb]. apply Nat.eqb_neq. lia.
  - replace (i + length (k :: k' :: ks') - 1)
      with (S i + length (k' :: ks') - 1) by (cbn [length]; lia).
    assert (option_nat_eqb (Some i) (Some (S i + length (k' :: ks') - 1)) = false)
      as -> by (cbn [option_nat_eqb length]; apply Nat.eqb_neq; lia).
    cbn [String.append]. apply IH. discriminate.
Qed.

Lemma filter_keep {A : Type} (p : A -> bool) (l : list A) :
  Forall (fun a => p a = true) l -> filter p l = l.
Proof.
  induction 1 as [|x l Hx _ IH]; [reflexivity|]. simpl. now rewrite Hx, IH.
Qed.

Lemma filter_drop {A : Type} (p : A -> bool) (l : list A) :
  Forall (fun a => p a = false) l -> filter p l = [].
Proof.
  induction 1 as [|x l Hx _ IH]; [reflexivity|]. simpl. now rewrite Hx, IH.
Qed.

End RenderFacts.

(** ** The worked examples, constructed *)

Lemma orders_built :
  __init__ Example.connections Example.orders = inr Example.orders_descriptor.
Proof. reflexivity. Qed.

(** ** Ordering of the field list *)

Section OrderFacts.

(** Any rearrangement of [l] that puts the keys [True] first and keeps the
    order inside both key classes is the result of the sort. *)
Lemma stable_sort_unique {A : Type} (key : A -> bool) (l l' ts fs : list A) :
  l' = ts ++ fs ->
  Forall (fun a => key a = true) ts ->
  Forall (fun a => key a = false) fs ->
  filter key l' = filter key l ->
  filter (fun a => negb (key a)) l' = filter (fun a => negb (key a)) l ->
  l' = Py.sort key true l.
Proof.
  intros -> Ht Hf Hk Hn. rewrite sort_desc, <- Hk, <- Hn, !filter_app.
  rewrite (filter_keep key ts Ht), (filter_drop key fs Hf), app_nil_r.
  rewrite (filter_drop (fun a => negb (key a)) ts),
          (filter_keep (fun a => negb (key a)) fs); [reflexivity| |].
  - eapply Forall_impl; [|exact Hf]. intros a Ha. cbn. now rewrite Ha.
  - eapply Forall_impl; [|exact Ht]. intros a Ha. cbn. now rewrite Ha.
Qed.

Lemma ordered_runs (fs : list Field) :
  exists ks ns,
    ordered fs = ks ++ ns /\
    Forall (fun f => is_key f = true) ks /\
    Forall (fun f => is_key f = false) ns.
Proof.
  unfold ordered. rewrite (sort_desc primary_key), (sort_desc foreign_key).
  rewrite (filter_app (fun a => negb (primary_key a))).
  exists (filter primary_key
            (filter foreign_key fs ++ filter (fun a => negb (foreign_key a)) fs)
          ++ filter (fun a => negb (primary_key a)) (filter foreign_key fs)).
  exists (filter (fun a => negb (primary_key a))
            (filter (fun a => negb (foreign_key a)) fs)).
  split; [now rewrite app_assoc|]. split.
  - apply Forall_app; split; apply Forall_forall; intros f Hf;
      apply filter_In in Hf as [Hin Hp]; unfold is_key.
    + now rewrite Hp.
    + apply filter_In in Hin as [_ Hfk]. rewrite Hfk. apply orb_true_r.
  - apply Forall_forall; intros f Hf.
    apply filter_In in Hf as [Hin Hp]. apply filter_In in Hin as [_ Hfk].
    unfold is_key. apply negb_true_iff in Hp, Hfk. now rewrite Hp, Hfk.
Qed.

Lemma runs_filter (ks ns : list Field) :
  Forall (fun f => is_key f = true) ks ->
  Forall (fun f => is_key f = false) ns ->
  filter is_key (ks ++ ns) = ks /\
  filter (fun f => negb (is_key f)) (ks ++ ns) = ns.
Proof.
  intros Hk Hn. rewrite !filter_app. split.
  - rewrite (filter_keep _ ks Hk), (filter_drop _ ns Hn). apply app_nil_r.
  - rewrite (filter_drop _ ks), (filter_keep _ ns); [reflexivity| |].
    + eapply Forall_impl; [|exact Hn]. intros f Hf. cbn. now rewrite Hf.
    + eapply Forall_impl; [|exact Hk]. intros f Hf. cbn. now rewrite Hf.
Qed.

Lemma make_fields_each (connection : Django.Connection)
    (columns : list Django.Field) (fs : list Field) :
  make_fields connection columns = inr fs ->
  Forall2 (fun c f => make_field connection c = inr f) columns fs.
Proof.
  revert fs. induction columns as [|c cs IH]; intros fs H; cbn in H.
  - injection H as <-. constructor.
  - destruct (make_field connection c) as [e|f] eqn:Ef; [discriminate|].
    destruct (make_fields connection cs) as [e|fs'] eqn:Efs; [discriminate|].
    injection H as <-. constructor; [exact Ef | now apply IH].
Qed.

(** A successful construction, read back: the connection was found, every
    column was converted, and the attributes are as [init_run] says. *)
Lemma init_success (connections : Django.ConnectionHandler)
    (model : Django.Model) (self : ModelDescriptor) :
  __init__ connections model = inr self ->
  exists connection declared,
    Django.connections_getitem connections
      (Django.app_label (Django._meta model)) = inr connection /\
    make_fields connection (Django.fields (Django._meta model)) = inr declared /\
    self = {| _meta := Django._meta model;
              _model_description :=
                Py.replace Py.nl "" (Py.replace " " "" (Django.__doc__ model));
              _fields := ordered declared;
              _db_indexes :=
                single_indexes (Django.fields (Django._meta model))
                ++ composite_indexes (Django._meta model);
              _unique_constraints :=
                single_uniques (Django.fields (Django._meta model))
                ++ composite_uniques (Django._meta model) |}.
Proof.
  intros H. rewrite init_run in H. cbv zeta in H.
  destruct (Django.connections_getitem connections _) as [e|connection] eqn:Hc;
    [discriminate|].
  destruct (make_fields connection _) as [e|declared] eqn:Hd; [discriminate|].
  injection H as <-. exists connection, declared. auto.
Qed.

End OrderFacts.

(** C1. Ordering invariant.  After construction, with [declared] the fields
    of the columns in declaration order: whenever [x] stands before [y] in
    the field list, [y] being a primary key makes [x] one, and if both are
    not primary keys, [y] being a foreign key makes [x] one; and for each
    pair of flag values the fields carrying them appear in the field list
    in exactly their declaration order. *)
Theorem ordering_invariant (connections : Django.ConnectionHandler)
    (model : Django.Model) (self : ModelDescriptor) :
  __init__ connections model = inr self ->
  exists connection declared,
    Django.connections_getitem connections
      (Django.app_label (Django._meta model)) = inr connection /\
    make_fields connection (Django.fields (Django._meta model)) = inr declared /\
    (forall l1 x l2 y l3,
        _fields self = l1 ++ x :: l2 ++ y :: l3 ->
        (primary_key y = true -> primary_key x = true) /\
        (primary_key x = false -> primary_key y = false ->
         foreign_key y = true -> foreign_key x = true)) /\
    (forall pk fk,
        filter (same_flags pk fk) (_fields self) = filter (same_flags pk fk) declared).
Proof.
  intros H. destruct (init_success _ _ _ H) as (connection & declared & Hc & Hd & ->).
  exists connection, declared. split; [exact Hc|]. split; [exact Hd|].
  cbn [_fields]. split.
  - intros l1 x l2 y l3 E. unfold ordered in E.
    rewrite (sort_desc primary_key) in E.
    set (s := Py.sort foreign_key true declared) in E.
    split.
    + intros Hy.
      eapply (runs_order primary_key); [| |exact E|exact Hy].
      * apply Forall_filter_true.
      * apply Forall_filter_false.
    + intros Hx _ Hy.
      destruct (runs_tail primary_key _ _ _ _ _ (Forall_filter_true _ _) E Hx)
        as [l1' E'].
      revert E'. subst s. rewrite (sort_desc foreign_key), filter_app.
      intros E'.
      assert (Forall (fun a => foreign_key a = true)
                (filter (fun a => negb (primary_key a))
                   (filter foreign_key declared))) as Ht.
      { apply Forall_forall. intros f Hf.
        apply filter_In in Hf as [Hf _]. now apply filter_In in Hf as [_ Hf]. }
      assert (Forall (fun a => foreign_key a = false)
                (filter (fun a => negb (primary_key a))
                   (filter (fun a => negb (foreign_key a)) declared))) as Hf.
      { apply Forall_forall. intros f Hf.
        apply filter_In in Hf as [Hf _]. apply filter_In in Hf as [_ Hf].
        now apply negb_true_iff in Hf. }
      exact (runs_order foreign_key _ _ _ _ _ _ _ Ht Hf E' Hy).
  - intros pk fk. unfold ordered.
    rewrite (filter_sort primary_key), (filter_sort foreign_key); [reflexivity| |];
      intros a b Ha Hb; unfold same_flags in Ha, Hb;
      apply andb_true_iff in Ha as [Ha1 Ha2]; apply andb_true_iff in Hb as [Hb1 Hb2];
      apply eqb_prop in Ha1, Ha2, Hb1, Hb2; congruence.
Qed.

Lemma ordering_invariant_witness :
  exists connection declared,
    Django.connections_getitem Example.connections
      (Django.app_label (Django._meta Example.orders)) = inr connection /\
    make_fields connection (Django.fields (Django._meta Example.orders)) = inr declared /\
    (forall l1 x l2 y l3,
        _fields Example.orders_descriptor = l1 ++ x :: l2 ++ y :: l3 ->
        (primary_key y = true -> primary_key x = true) /\
        (primary_key x = false -> primary_key y = false ->
         foreign_key y = true -> foreign_key x = true)) /\
    (forall pk fk,
        filter (same_flags pk fk) (_fields Example.orders_descriptor)
        = filter (same_flags pk fk) declared).
Proof.
  apply (ordering_invariant Example.connections Example.orders
           Example.orders_descriptor).
  reflexivity.
Defined.

(** A successful construction, column by column: [declared] lists the
    fields of the columns in declaration order, and the field list is a
    rearrangement of it. *)
Lemma init_columns (connections : Django.ConnectionHandler)
    (model : Django.Model) (self : ModelDescriptor) :
  __init__ connections model = inr self ->
  exists connection declared,
    Django.connections_getitem connections
      (Django.app_label (Django._meta model)) = inr connection /\
    Forall2 (fun c f => make_field connection c = inr f /\ name f = Django.name c)
      (Django.fields (Django._meta model)) declared /\
    Permutation declared (_fields self).
Proof.
  intros H. destruct (init_success _ _ _ H) as (connection & declared & Hc & Hd & ->).
  exists connection, declared. cbn [_fields].
  split; [exact Hc|]. split.
  - pose proof (make_fields_each _ _ _ Hd) as Hall.
    clear - Hall. induction Hall as [|c f cs fs Hcf _ IH]; constructor; [|exact IH].
    split; [exact Hcf|]. unfold make_field in Hcf.
    destruct (Django.db_type c connection) as [e|raw]; [discriminate|].
    destruct (upper_method raw) as [e|up]; [discriminate|].
    now injection Hcf as <-.
  - unfold ordered. eapply Permutation_trans; apply sort_perm.
Qed.

(** C10. Construction neither drops nor duplicates columns: the columns, in
    declaration order, are converted one by one into the list [declared]
    (same length, the i-th field made from the i-th column), and the field
    list of the descriptor is a permutation of [declared]; so it has as
    many fields as there are columns, and its names are the column names
    rearranged. *)
Theorem fields_permutation (connections : Django.ConnectionHandler)
    (model : Django.Model) (self : ModelDescriptor) :
  __init__ connections model = inr self ->
  exists connection declared,
    Django.connections_getitem connections
      (Django.app_label (Django._meta model)) = inr connection /\
    Forall2 (fun c f => make_field connection c = inr f /\ name f = Django.name c)
      (Django.fields (Django._meta model)) declared /\
    Permutation declared (_fields self) /\
    length (_fields self) = length (Django.fields (Django._meta model)) /\
    Permutation (map Django.name (Django.fields (Django._meta model)))
      (map name (_fields self)).
Proof.
  intros H.
  destruct (init_columns _ _ _ H) as (connection & declared & Hc & Hall & Hperm).
  exists connection, declared.
  assert (map Django.name (Django.fields (Django._meta model)) = map name declared)
    as Hnames.
  { clear - Hall. induction Hall as [|c f cs fs [_ Hn] _ IH]; [reflexivity|].
    cbn [map]. now rewrite IH, Hn. }
  repeat split.
  - exact Hc.
  - exact Hall.
  - exact Hperm.
  - rewrite <- (Permutation_length Hperm), <- (length_map name declared), <- Hnames.
    apply length_map.
  - rewrite Hnames. now apply Permutation_map.
Qed.

Lemma fields_permutation_witness :
  exists connection declared,
    Django.connections_getitem Example.connections
      (Django.app_label (Django._meta Example.orders)) = inr connection /\
    Forall2 (fun c f => make_field connection c = inr f /\ name f = Django.name c)
      (Django.fields (Django._meta Example.orders)) declared /\
    Permutation declared (_fields Example.orders_descriptor) /\
    length (_fields Example.orders_descriptor)
    = length (Django.fields (Django._meta Example.orders)) /\
    Permutation (map Django.name (Django.fields (Django._meta Example.orders)))
      (map name (_fields Example.orders_descriptor)).
Proof.
  apply (fields_permutation Example.connections Example.orders
           Example.orders_descriptor).
  reflexivity.
Defined.

(** ** Failure of the constructor *)

Section FailureFacts.

Variable connection : Django.Connection.

Lemma make_field_fails (c : Django.Field) (e : Py.exn) :
  resolve_type connection c = inl e -> make_field connection c = inl e.
Proof.
  unfold resolve_type, make_field.
  destruct (Django.db_type c connection) as [e0|raw];
    [intros H; now injection H as ->|].
  destruct (upper_method raw); [intros H; now injection H as -> | discriminate].
Qed.

Lemma make_fields_fails_somewhere (columns : list Django.Field)
    (c : Django.Field) (e : Py.exn) :
  In c columns -> resolve_type connection c = inl e ->
  exists e', make_fields connection columns = inl e'.
Proof.
  intros Hin He. induction columns as [|d ds IH]; [contradiction|].
  cbn [make_fields]. destruct (make_field connection d) as [e0|f] eqn:Ed;
    [now exists e0|].
  destruct Hin as [->|Hin].
  - rewrite (make_field_fails _ _ He) in Ed. discriminate.
  - destruct (IH Hin) as [e' ->]. now exists e'.
Qed.

Lemma make_fields_fails_first (before after : list Django.Field)
    (c : Django.Field) (fs : list Field) (e : Py.exn) :
  make_fields connection before = inr fs ->
  resolve_type connection c = inl e ->
  make_fields connection (before ++ c :: after) = inl e.
Proof.
  revert fs. induction before as [|b bs IH]; intros fs Hb He.
  - cbn. now rewrite (make_field_fails _ _ He).
  - cbn in Hb |- *. destruct (make_field connection b) as [e0|f]; [discriminate|].
    destruct (make_fields connection bs) as [e0|fs'] eqn:Ebs; [discriminate|].
    now rewrite (IH fs' eq_refl He).
Qed.

End FailureFacts.

(** C3, as the code has it.  When the type of a column cannot be resolved
    -- [db_type(connection)] raises, or returns [None] so that [.upper()]
    raises -- the constructor raises and no descriptor is produced; when the
    columns before it were converted, the exception that leaves the
    constructor is that column's own, unchanged; for a [None] type it is
    the [AttributeError] of [None.upper()]. *)
Theorem unresolved_type_aborts (connections : Django.ConnectionHandler)
    (model : Django.Model) (connection : Django.Connection)
    (c : Django.Field) (e : Py.exn) :
  Django.connections_getitem connections
    (Django.app_label (Django._meta model)) = inr connection ->
  In c (Django.fields (Django._meta model)) ->
  resolve_type connection c = inl e ->
  (exists e', __init__ connections model = inl e') /\
  (forall before after fs,
      Django.fields (Django._meta model) = before ++ c :: after ->
      make_fields connection before = inr fs ->
      __init__ connections model = inl e) /\
  (Django.db_type c connection = inr None -> e = none_has_no_upper) /\
  (forall e0, Django.db_type c connection = inl e0 -> e = e0).
Proof.
  intros Hc Hin He. rewrite init_run. cbv zeta. rewrite Hc.
  split; [|split; [|split]].
  - destruct (make_fields_fails_somewhere connection _ _ _ Hin He) as [e' ->].
    now exists e'.
  - intros before after fs Hsplit Hb.
    now rewrite Hsplit, (make_fields_fails_first connection _ _ _ _ _ Hb He).
  - intros Hnone. unfold resolve_type in He. rewrite Hnone in He.
    cbn in He. now injection He as <-.
  - intros e0 Hraise. unfold resolve_type in He. rewrite Hraise in He.
    now injection He as <-.
Qed.

Lemma unresolved_type_aborts_witness :
  (exists e', __init__ Example.connections ExampleUntyped.events = inl e') /\
  (forall before after fs,
      Django.fields (Django._meta ExampleUntyped.events)
      = before ++ ExampleUntyped.payload :: after ->
      make_fields Example.shop before = inr fs ->
      __init__ Example.connections ExampleUntyped.events = inl none_has_no_upper) /\
  (Django.db_type ExampleUntyped.payload Example.shop = inr None ->
   none_has_no_upper = none_has_no_upper) /\
  (forall e0, Django.db_type ExampleUntyped.payload Example.shop = inl e0 ->
              none_has_no_upper = e0).
Proof.
  apply (unresolved_type_aborts Example.connections ExampleUntyped.events
           Example.shop ExampleUntyped.payload none_has_no_upper).
  - reflexivity.
  - simpl. right. left. reflexivity.
  - reflexivity.
Defined.

(** C3 as the specification words it does not hold: for a column whose
    type is not resolved
    the exception is an [AttributeError], not an [UnsupportedSchemaError]. *)
Lemma unsupported_schema_error_counterexample :
  __init__ Example.connections ExampleUntyped.events = inl none_has_no_upper /\
  ~ fails_with "UnsupportedSchemaError"
      (__init__ Example.connections ExampleUntyped.events).
Proof.
  split; [reflexivity|].
  intros (e & He & Hcls). cbn in He. injection He as <-. discriminate Hcls.
Qed.

(** ** The table description *)

(** C4, as the code has it.  The stored description is the docstring with
    every space and every line feed removed, and nothing else removed. *)
Theorem description_without_spaces_and_newlines
    (connections : Django.ConnectionHandler)
    (model : Django.Model) (self : ModelDescriptor) :
  __init__ connections model = inr self ->
  _model_description self = filter_chars kept_in_description (Django.__doc__ model) /\
  occurs " " (_model_description self) = false /\
  occurs Py.LF (_model_description self) = false.
Proof.
  intros H. destruct (init_success _ _ _ H) as (connection & declared & _ & _ & ->).
  cbn [_model_description].
  assert (Py.replace Py.nl "" (Py.replace " " "" (Django.__doc__ model))
          = filter_chars kept_in_description (Django.__doc__ model)) as ->.
  { unfold Py.nl. rewrite !replace_char, !subst_char_empty, filter_chars_twice.
    reflexivity. }
  repeat split; apply occurs_filter_chars; reflexivity.
Qed.

Lemma description_without_spaces_and_newlines_witness :
  _model_description Example.orders_descriptor
  = filter_chars kept_in_description (Django.__doc__ Example.orders) /\
  occurs " " (_model_description Example.orders_descriptor) = false /\
  occurs Py.LF (_model_description Example.orders_descriptor) = false.
Proof.
  apply (description_without_spaces_and_newlines Example.connections Example.orders
           Example.orders_descriptor).
  reflexivity.
Defined.

(** C4 as the specification words it does not hold: a tab is whitespace and stays in the
    description. *)
Lemma all_whitespace_removed_counterexample :
  __init__ Example.connections ExampleTabbed.audit = inr ExampleTabbed.audit_descriptor /\
  _model_description ExampleTabbed.audit_descriptor
  <> remove_whitespace (Django.__doc__ ExampleTabbed.audit).
Proof.
  split; [reflexivity|]. vm_compute. discriminate.
Qed.

(** ** Field descriptions *)

Lemma make_field_description (connection : Django.Connection)
    (c : Django.Field) (f : Field) :
  make_field connection c = inr f ->
  (Django.verbose_name c = spaced_name c -> description f = "") /\
  (Django.verbose_name c <> spaced_name c -> description f = Django.verbose_name c).
Proof.
  unfold make_field, spaced_name. rewrite replace_char.
  destruct (Django.db_type c connection) as [e|raw]; [discriminate|].
  destruct (upper_method raw) as [e|up]; [discriminate|].
  intros H. injection H as <-. cbv beta iota delta [description].
  destruct (String.eqb_spec (Django.verbose_name c)
              (subst_char "_" " " (Django.name c))) as [E|N]; cbn [negb];
    split; intros; congruence.
Qed.

(** C5, as the code has it.  For every column, converted in declaration
    order into [declared] (of which the field list is a permutation): the
    description is empty when the verbose label equals the column name with
    every underscore replaced by a space, and is the verbose label verbatim
    for any other label. *)
Theorem description_suppression (connections : Django.ConnectionHandler)
    (model : Django.Model) (self : ModelDescriptor) :
  __init__ connections model = inr self ->
  exists declared,
    Permutation declared (_fields self) /\
    Forall2 (fun c f =>
               name f = Django.name c /\
               (Django.verbose_name c = spaced_name c -> description f = "") /\
               (Django.verbose_name c <> spaced_name c ->
                description f = Django.verbose_name c))
      (Django.fields (Django._meta model)) declared.
Proof.
  intros H. destruct (init_columns _ _ _ H)
    as (connection & declared & _ & Hall & Hperm).
  exists declared. split; [exact Hperm|].
  clear - Hall. induction Hall as [|c f cs fs [Hcf Hn] _ IH]; constructor; [|exact IH].
  split; [exact Hn|]. exact (make_field_description _ _ _ Hcf).
Qed.

Lemma description_suppression_witness :
  exists declared,
    Permutation declared (_fields Example.orders_descriptor) /\
    Forall2 (fun c f =>
               name f = Django.name c /\
               (Django.verbose_name c = spaced_name c -> description f = "") /\
               (Django.verbose_name c <> spaced_name c ->
                description f = Django.verbose_name c))
      (Django.fields (Django._meta Example.orders)) declared.
Proof.
  apply (description_suppression Example.connections Example.orders
           Example.orders_descriptor).
  reflexivity.
Defined.

(** C5 as the specification words it does not hold in the "exactly when" direction: an
    empty verbose label gives an empty description although it differs from
    the spaced column name. *)
Lemma empty_label_counterexample :
  __init__ Example.connections ExampleUnlabelled.memo
  = inr ExampleUnlabelled.memo_descriptor /\
  _fields ExampleUnlabelled.memo_descriptor = [ExampleUnlabelled.f_note] /\
  name ExampleUnlabelled.f_note = Django.name ExampleUnlabelled.note /\
  ~ (description ExampleUnlabelled.f_note = "" <->
     Django.verbose_name ExampleUnlabelled.note
     = Py.replace "_" " " (Django.name ExampleUnlabelled.note)).
Proof.
  repeat split; try reflexivity.
  intros [Hempty _]. specialize (Hempty eq_refl). vm_compute in Hempty.
  discriminate Hempty.
Qed.

(** ** The additional-info table *)

Section InfoFacts.

Lemma join_cons2 (sep a b : string) (rest : list string) :
  Py.join sep (a :: b :: rest) = a +++ sep +++ Py.join sep (b :: rest).
Proof. reflexivity. Qed.

(** Substituting the separator character of a joined text substitutes
    inside the parts and turns each separator into [new]. *)
Lemma subst_join (c : ascii) (new : string) (parts : list string) :
  subst_char c new (Py.join (String c "") parts)
  = Py.join new (map (subst_char c new) parts).
Proof.
  induction parts as [|a [|b rest] IH]; [reflexivity | reflexivity |].
  rewrite join_cons2, !subst_char_app, IH.
  cbn [map]. rewrite join_cons2. f_equal. f_equal.
  cbn [subst_char]. rewrite Ascii.eqb_refl. apply append_nil_r.
Qed.

Lemma map_comma_free (parts : list string) :
  forallb comma_free parts = true ->
  map (subst_char "," ", ") parts = parts.
Proof.
  induction parts as [|a rest IH]; [reflexivity|]. cbn [forallb map].
  intros H. apply andb_true_iff in H as [Ha Hr].
  rewrite IH by exact Hr. f_equal. apply subst_char_absent.
  unfold comma_free in Ha. now apply negb_true_iff in Ha.
Qed.

Lemma index_row_join (parts : list string) :
  index_row (Py.join "," parts)
  = "| index | " +++ Py.join ", " (map (subst_char "," ", ") parts)
    +++ " | |" +++ Py.nl.
Proof. unfold index_row. now rewrite replace_char, subst_join. Qed.

Lemma unique_row_join (parts : list string) :
  unique_row (Py.join "," parts)
  = "| unique | " +++ Py.join ", " (map (subst_char "," ", ") parts)
    +++ " | |" +++ Py.nl.
Proof. unfold unique_row. now rewrite replace_char, subst_join. Qed.

Lemma index_row_length (s : string) :
  String.length (index_row s)
  = 15 + String.length (subst_char "," ", " s).
Proof.
  unfold index_row. rewrite replace_char, !append_length.
  cbn [String.length Py.nl]. lia.
Qed.

(** The row of a two-column group is longer than the row of either column. *)
Lemma index_row_pair_length (a b : string) :
  String.length (index_row (Py.join "," [a; b]))
  = String.length (index_row a) + 2 + String.length (subst_char "," ", " b)
  /\ String.length (index_row (Py.join "," [a; b]))
     = String.length (index_row b) + 2 + String.length (subst_char "," ", " a).
Proof.
  rewrite !index_row_length.
  change (Py.join "," [a; b]) with (a +++ "," +++ b).
  rewrite !subst_char_app, !append_length. cbn. lia.
Qed.

End InfoFacts.

(** C6. The additional-info table of the markdown text lists the
    single-column indexes (declaration order), then the composite indexes,
    each in a row tagged [index], then the single-column and the composite
    uniqueness constraints, each in a row tagged [unique].  A composite
    entry shows its columns joined by a comma followed by a space; for
    column names without a comma that is the names joined by [", "], so the
    group [[a; b]] has the one row of value [a, b], which differs from the
    single-column rows of [a] and of [b]. *)
Theorem additional_info_table (connections : Django.ConnectionHandler)
    (model : Django.Model) (self : ModelDescriptor) :
  __init__ connections model = inr self ->
  let meta := Django._meta model in
  markdown self =
    inr (schema_head self
         +++ cat (map markdown_repr (_fields self))
         +++ info_head
         +++ cat (map index_row (single_indexes (Django.fields meta)
                                 ++ composite_indexes meta))
         +++ cat (map unique_row (single_uniques (Django.fields meta)
                                  ++ composite_uniques meta)),
         self) /\
  (forall group,
      index_row (Py.join "," group)
      = "| index | " +++ Py.join ", " (map (subst_char "," ", ") group)
        +++ " | |" +++ Py.nl /\
      unique_row (Py.join "," group)
      = "| unique | " +++ Py.join ", " (map (subst_char "," ", ") group)
        +++ " | |" +++ Py.nl) /\
  (forall group,
      forallb comma_free group = true ->
      index_row (Py.join "," group)
      = "| index | " +++ Py.join ", " group +++ " | |" +++ Py.nl /\
      unique_row (Py.join "," group)
      = "| unique | " +++ Py.join ", " group +++ " | |" +++ Py.nl) /\
  (forall a b,
      comma_free a = true -> comma_free b = true ->
      index_row (Py.join "," [a; b])
      = "| index | " +++ a +++ ", " +++ b +++ " | |" +++ Py.nl) /\
  (forall a b,
      index_row (Py.join "," [a; b]) <> index_row a /\
      index_row (Py.join "," [a; b]) <> index_row b).
Proof.
  intros H meta.
  destruct (init_success _ _ _ H) as (connection & declared & _ & _ & Hself).
  split; [|split; [|split; [|split]]].
  - rewrite markdown_run. unfold markdown_text. subst self. reflexivity.
  - intros group. split; [apply index_row_join | apply unique_row_join].
  - intros group Hfree.
    rewrite index_row_join, unique_row_join, (map_comma_free _ Hfree). now split.
  - intros a b Ha Hb.
    rewrite index_row_join, map_comma_free
      by (cbn [forallb]; now rewrite Ha, Hb).
    rewrite join_cons2. now rewrite !append_assoc.
  - intros a b. destruct (index_row_pair_length a b) as [La Lb].
    split; intros E; rewrite E in *; lia.
Qed.

Lemma additional_info_table_witness :
  markdown Example.orders_descriptor =
    inr ("## orders" +++ Py.nl +++ "Customerorderheader" +++ Py.nl +++ Py.nl
         +++ "#### schema" +++ Py.nl
         +++ "| field_name | type | description |" +++ Py.nl
         +++ "|---|---|---|" +++ Py.nl
         +++ "| id | PK, BIGINT | ID |" +++ Py.nl
         +++ "| customer_id | FK, BIGINT |  |" +++ Py.nl
         +++ "| status | VARCHAR(20) |  |" +++ Py.nl
         +++ Py.nl +++ Py.nl
         +++ "#### additional info" +++ Py.nl
         +++ "| type | value | description |" +++ Py.nl
         +++ "|---|---|---|" +++ Py.nl
         +++ "| index | customer_id | |" +++ Py.nl
         +++ "| index | status, customer_id | |" +++ Py.nl
         +++ "| unique | status | |" +++ Py.nl,
         Example.orders_descriptor) /\
  index_row (Py.join "," ["status"; "customer_id"])
  = "| index | status, customer_id | |" +++ Py.nl.
Proof.
  destruct (additional_info_table Example.connections Example.orders
              Example.orders_descriptor eq_refl) as (Htext & _ & _ & Hpair & _).
  split.
  - exact Htext.
  - exact (Hpair "status" "customer_id" eq_refl eq_refl).
Defined.

(** ** Rendering never fails and never changes the descriptor *)

Lemma blank_built :
  __init__ Example.connections ExampleEmpty.blank = inr ExampleEmpty.blank_descriptor.
Proof. reflexivity. Qed.

(** C7. Both renderers return a text for every descriptor, and leave it
    as it was; for a descriptor without fields the markdown text is the
    heading, the schema table head with no row, and the additional-info
    table, and the diagram text is the entity block with nothing between
    the opening and the closing line. *)
Theorem empty_model_renders (self : ModelDescriptor) :
  (exists text, markdown self = inr (text, self)) /\
  (exists text, plantuml_entity self = inr (text, self)) /\
  (_fields self = [] ->
   markdown self =
     inr (schema_head self +++ info_head
          +++ cat (map index_row (_db_indexes self))
          +++ cat (map unique_row (_unique_constraints self)),
          self) /\
   plantuml_entity self =
     inr ("entity " +++ Django.db_table (_meta self) +++ " {" +++ Py.nl
          +++ "}" +++ Py.nl,
          self)).
Proof.
  split; [|split].
  - exists (markdown_text self). apply markdown_run.
  - exists (plantuml_text self). apply plantuml_run.
  - intros Hnone. rewrite markdown_run, plantuml_run.
    unfold markdown_text, plantuml_text, entity_head. rewrite Hnone.
    split; [reflexivity|]. cbn [entity_body]. now rewrite !append_assoc.
Qed.

Lemma empty_model_renders_witness :
  markdown ExampleEmpty.blank_descriptor =
    inr ("## blank" +++ Py.nl +++ "Nothingyet" +++ Py.nl +++ Py.nl
         +++ "#### schema" +++ Py.nl
         +++ "| field_name | type | description |" +++ Py.nl
         +++ "|---|---|---|" +++ Py.nl
         +++ Py.nl +++ Py.nl
         +++ "#### additional info" +++ Py.nl
         +++ "| type | value | description |" +++ Py.nl
         +++ "|---|---|---|" +++ Py.nl,
         ExampleEmpty.blank_descriptor) /\
  plantuml_entity ExampleEmpty.blank_descriptor =
    inr ("entity blank {" +++ Py.nl +++ "}" +++ Py.nl, ExampleEmpty.blank_descriptor).
Proof.
  destruct (empty_model_renders ExampleEmpty.blank_descriptor) as (_ & _ & Hblank).
  exact (Hblank eq_refl).
Defined.

(** C8. Rendering is repeatable: the second call of a renderer returns the
    same text as the first, whether the other renderer ran in between or
    not, and the descriptor is the same afterwards. *)
Theorem rendering_repeatable (self : ModelDescriptor) :
  (a <- markdown ;; b <- markdown ;; ret (a, b)) self
  = inr ((markdown_text self, markdown_text self), self) /\
  (a <- plantuml_entity ;; b <- plantuml_entity ;; ret (a, b)) self
  = inr ((plantuml_text self, plantuml_text self), self) /\
  (a <- markdown ;; u <- plantuml_entity ;; b <- markdown ;;
   v <- plantuml_entity ;; ret (a, u, b, v)) self
  = inr ((markdown_text self, plantuml_text self,
          markdown_text self, plantuml_text self), self).
Proof.
  unfold bind. rewrite !markdown_run, !plantuml_run.
  rewrite !markdown_run, !plantuml_run. repeat split.
Qed.

(** ** Choices are not rendered *)

Section ChoicesFacts.

Lemma markdown_repr_erase (f : Field) :
  markdown_repr (erase_choices f) = markdown_repr f.
Proof. reflexivity. Qed.

Lemma plantuml_entity_repr_erase (f : Field) :
  plantuml_entity_repr (erase_choices f) = plantuml_entity_repr f.
Proof. reflexivity. Qed.

Lemma map_markdown_repr_erase (fs : list Field) :
  map markdown_repr (map erase_choices fs) = map markdown_repr fs.
Proof. rewrite map_map. apply map_ext. intros f. apply markdown_repr_erase. Qed.

Lemma last_key_index_erase (fs : list Field) (i : nat) (last : option nat) :
  last_key_index i (map erase_choices fs) last = last_key_index i fs last.
Proof.
  revert i last. induction fs as [|f fs IH]; intros i last; [reflexivity|].
  unfold last_key_index in *. cbn [map length seq combine fold_left].
  apply IH.
Qed.

Lemma entity_body_erase (last : option nat) (fs : list Field) (i : nat) :
  entity_body last i (map erase_choices fs) = entity_body last i fs.
Proof.
  revert i. induction fs as [|f fs IH]; intros i; [reflexivity|].
  cbn [map entity_body]. now rewrite IH, plantuml_entity_repr_erase.
Qed.

(** The texts of two descriptors that agree up to [choices]. *)
Lemma texts_ignore_choices (d1 d2 : ModelDescriptor) :
  Django.db_table (_meta d1) = Django.db_table (_meta d2) ->
  _model_description d1 = _model_description d2 ->
  map erase_choices (_fields d1) = map erase_choices (_fields d2) ->
  _db_indexes d1 = _db_indexes d2 ->
  _unique_constraints d1 = _unique_constraints d2 ->
  markdown_text d1 = markdown_text d2 /\ plantuml_text d1 = plantuml_text d2.
Proof.
  intros Ht Hd Hf Hi Hu. split.
  - unfold markdown_text, schema_head.
    rewrite <- (map_markdown_repr_erase (_fields d1)),
            <- (map_markdown_repr_erase (_fields d2)).
    now rewrite Ht, Hd, Hf, Hi, Hu.
  - unfold plantuml_text, entity_head.
    rewrite <- (last_key_index_erase (_fields d1)),
            <- (last_key_index_erase (_fields d2)).
    rewrite <- (entity_body_erase _ (_fields d1)),
            <- (entity_body_erase _ (_fields d2)).
    now rewrite Ht, Hf.
Qed.

(** [choices] is carried from the column into the field. *)
Lemma choices_carried (connection : Django.Connection)
    (c : Django.Field) (f : Field) :
  make_field connection c = inr f -> choices f = Django.choices c.
Proof.
  unfold make_field.
  destruct (Django.db_type c connection) as [e|raw]; [discriminate|].
  destruct (upper_method raw) as [e|up]; [discriminate|].
  intros H. now injection H as <-.
Qed.

Lemma make_field_forget (connection : Django.Connection) (c : Django.Field) :
  make_field connection (forget_choices c) =
    match make_field connection c with
    | inl e => inl e
    | inr f => inr (erase_choices f)
    end.
Proof.
  unfold make_field, forget_choices. cbn.
  destruct (Django.db_type c connection) as [e|raw]; [reflexivity|].
  destruct (upper_method raw) as [e|up]; reflexivity.
Qed.

Lemma make_fields_forget (connection : Django.Connection)
    (columns : list Django.Field) :
  make_fields connection (map forget_choices columns) =
    match make_fields connection columns with
    | inl e => inl e
    | inr fs => inr (map erase_choices fs)
    end.
Proof.
  induction columns as [|c cs IH]; [reflexivity|].
  cbn [map make_fields]. rewrite make_field_forget, IH.
  destruct (make_field connection c) as [e|f]; [reflexivity|].
  destruct (make_fields connection cs) as [e|fs]; reflexivity.
Qed.

Lemma single_indexes_forget (columns : list Django.Field) :
  single_indexes (map forget_choices columns) = single_indexes columns.
Proof.
  unfold single_indexes. induction columns as [|c cs IH]; [reflexivity|].
  cbn [map filter forget_choices Django.primary_key Django.db_index].
  destruct (negb (Django.primary_key c) && Django.db_index c);
    cbn [map Django.name forget_choices]; now rewrite IH.
Qed.

Lemma single_uniques_forget (columns : list Django.Field) :
  single_uniques (map forget_choices columns) = single_uniques columns.
Proof.
  unfold single_uniques. induction columns as [|c cs IH]; [reflexivity|].
  cbn [map filter forget_choices Django.primary_key Django.unique].
  destruct (negb (Django.primary_key c) && Django.unique c);
    cbn [map Django.name forget_choices]; now rewrite IH.
Qed.

(** Sorting looks at the keys only. *)
Lemma insert_map (key : Field -> bool) (reverse : bool) (x : Field) (l : list Field) :
  (forall f, key (erase_choices f) = key f) ->
  map erase_choices (Py.insert key reverse x l)
  = Py.insert key reverse (erase_choices x) (map erase_choices l).
Proof.
  intros Hkey. induction l as [|y t IH]; [reflexivity|].
  cbn [Py.insert map]. rewrite !Hkey.
  destruct (Py.goes_before reverse (key y) (key x)); cbn [map];
    [now rewrite IH | reflexivity].
Qed.

Lemma sort_map (key : Field -> bool) (reverse : bool) (l : list Field) :
  (forall f, key (erase_choices f) = key f) ->
  map erase_choices (Py.sort key reverse l)
  = Py.sort key reverse (map erase_choices l).
Proof.
  intros Hkey. induction l as [|x t IH]; [reflexivity|].
  cbn [Py.sort map]. now rewrite insert_map, IH.
Qed.

Lemma ordered_map (fs : list Field) :
  map erase_choices (ordered fs) = ordered (map erase_choices fs).
Proof.
  unfold ordered. rewrite !sort_map; reflexivity.
Qed.

End ChoicesFacts.

(** C9. Two descriptors that agree on the table name, the description, the
    index and uniqueness entries and on every component of every field but
    [choices] render to the same markdown text and to the same diagram
    text. *)
Theorem choices_not_rendered (d1 d2 : ModelDescriptor) :
  Django.db_table (_meta d1) = Django.db_table (_meta d2) ->
  _model_description d1 = _model_description d2 ->
  map erase_choices (_fields d1) = map erase_choices (_fields d2) ->
  _db_indexes d1 = _db_indexes d2 ->
  _unique_constraints d1 = _unique_constraints d2 ->
  exists md uml,
    markdown d1 = inr (md, d1) /\ markdown d2 = inr (md, d2) /\
    plantuml_entity d1 = inr (uml, d1) /\ plantuml_entity d2 = inr (uml, d2).
Proof.
  intros Ht Hd Hf Hi Hu.
  destruct (texts_ignore_choices d1 d2 Ht Hd Hf Hi Hu) as [Hmd Huml].
  exists (markdown_text d1), (plantuml_text d1).
  rewrite !markdown_run, !plantuml_run, <- Hmd, <- Huml.
  repeat split.
Qed.

Lemma choices_not_rendered_witness :
  exists md uml,
    markdown Example.orders_descriptor = inr (md, Example.orders_descriptor) /\
    markdown ExampleChoices.orders_descriptor
    = inr (md, ExampleChoices.orders_descriptor) /\
    plantuml_entity Example.orders_descriptor = inr (uml, Example.orders_descriptor) /\
    plantuml_entity ExampleChoices.orders_descriptor
    = inr (uml, ExampleChoices.orders_descriptor).
Proof.
  apply (choices_not_rendered Example.orders_descriptor
           ExampleChoices.orders_descriptor); reflexivity.
Defined.

(** ** Choices, from the columns to the texts *)

(** Two models that differ at most in the [choices] of their columns are
    constructed alike: both constructions raise the same exception, or both
    succeed and the descriptors render to the same two texts. *)
Lemma construction_ignores_choices (connections : Django.ConnectionHandler)
    (m1 m2 : Django.Model) :
  same_but_choices m1 m2 ->
  match __init__ connections m1, __init__ connections m2 with
  | inr d1, inr d2 =>
      markdown_text d1 = markdown_text d2 /\ plantuml_text d1 = plantuml_text d2
  | inl e1, inl e2 => e1 = e2
  | _, _ => False
  end.
Proof.
  intros (Hdoc & Happ & Htab & Hix & Huq & Hcols).
  rewrite !init_run. cbv zeta. rewrite <- Happ.
  destruct (Django.connections_getitem connections
              (Django.app_label (Django._meta m1))) as [e|connection];
    [reflexivity|].
  pose proof (make_fields_forget connection (Django.fields (Django._meta m1))) as H1.
  pose proof (make_fields_forget connection (Django.fields (Django._meta m2))) as H2.
  rewrite Hcols, H2 in H1. clear H2.
  destruct (make_fields connection (Django.fields (Django._meta m1))) as [e1|fs1],
           (make_fields connection (Django.fields (Django._meta m2))) as [e2|fs2];
    try discriminate H1.
  - now injection H1 as ->.
  - injection H1 as Hfs. apply texts_ignore_choices;
      cbn [_meta _model_description _fields _db_indexes _unique_constraints].
    + now symmetry.
    + now rewrite Hdoc.
    + now rewrite !ordered_map, Hfs.
    + unfold composite_indexes.
      rewrite <- (single_indexes_forget (Django.fields (Django._meta m1))),
              <- (single_indexes_forget (Django.fields (Django._meta m2))).
      now rewrite Hcols, Hix.
    + unfold composite_uniques.
      rewrite <- (single_uniques_forget (Django.fields (Django._meta m1))),
              <- (single_uniques_forget (Django.fields (Django._meta m2))).
      now rewrite Hcols, Huq.
Qed.

(** ** The separator of the entity block *)

Section SeparatorFacts.

Lemma firstn_skipn_runs {A : Type} (ks ns : list A) :
  firstn (length ks) (ks ++ ns) = ks /\ skipn (length ks) (ks ++ ns) = ns.
Proof.
  induction ks as [|k ks [IH1 IH2]]; [now split|].
  cbn [length app firstn skipn]. now rewrite IH1, IH2.
Qed.

Lemma plantuml_runs (self : ModelDescriptor) (ks ns : list Field) :
  _fields self = ks ++ ns ->
  Forall (fun f => is_key f = true) ks ->
  Forall (fun f => is_key f = false) ns ->
  plantuml_text self =
    entity_head self
    +++ cat (map plantuml_entity_repr ks)
    +++ (if Nat.eqb (length ks) 0 then "" else separator)
    +++ cat (map plantuml_entity_repr ns)
    +++ "}" +++ Py.nl.
Proof.
  intros Hf Hk Hn. unfold plantuml_text. rewrite Hf.
  rewrite (last_key_index_runs ks ns 0 None Hk Hn).
  f_equal. destruct ks as [|k ks'].
  - cbn [app length Nat.eqb map]. change (cat []) with "".
    cbn [String.append]. rewrite entity_body_plain; [reflexivity|].
    reflexivity.
  - rewrite entity_body_runs by discriminate.
    cbn [length Nat.eqb]. now rewrite !append_assoc.
Qed.

Lemma repr_line (f : Field) :
  plantuml_entity_repr f = plantuml_entity_line f +++ Py.nl.
Proof.
  unfold plantuml_entity_repr, plantuml_entity_line. now rewrite !append_assoc.
Qed.

Lemma line_not_separator (f : Field) : plantuml_entity_line f <> separator_line.
Proof.
  unfold plantuml_entity_line, separator_line.
  destruct (name f) as [|a [|b [|c n]]]; cbn; intros H; discriminate H.
Qed.

Lemma repr_not_separator (f : Field) : plantuml_entity_repr f <> separator.
Proof.
  unfold plantuml_entity_repr, separator.
  destruct (name f) as [|a [|b [|c [|d n]]]]; cbn; intros H; discriminate H.
Qed.

Lemma head_not_separator (self : ModelDescriptor) :
  entity_head_line self <> separator_line.
Proof. unfold entity_head_line, separator_line. cbn. intros H. discriminate H. Qed.

Lemma split_lines_line (s rest : string) :
  occurs Py.LF s = false ->
  Py.split_lines (s +++ Py.nl +++ rest) = s :: Py.split_lines rest.
Proof.
  induction s as [|c s IH]; intros H.
  - reflexivity.
  - cbn [occurs] in H. apply orb_false_iff in H as [Hc Hs].
    cbn [String.append Py.split_lines]. rewrite Hc, (IH Hs). reflexivity.
Qed.

Lemma line_single (f : Field) :
  single_line (name f) && single_line (db_type f) = true ->
  occurs Py.LF (plantuml_entity_line f) = false.
Proof.
  unfold single_line, plantuml_entity_line. intros H.
  apply andb_true_iff in H as [Hn Ht]. apply negb_true_iff in Hn, Ht.
  rewrite !occurs_app, Hn, Ht.
  destruct (primary_key f), (foreign_key f); reflexivity.
Qed.

Lemma split_lines_fields (fs : list Field) (rest : string) :
  forallb (fun f => single_line (name f) && single_line (db_type f)) fs = true ->
  Py.split_lines (cat (map plantuml_entity_repr fs) +++ rest)
  = map plantuml_entity_line fs ++ Py.split_lines rest.
Proof.
  induction fs as [|f fs IH]; intros H; [reflexivity|].
  cbn [forallb] in H. apply andb_true_iff in H as [Hf Hfs].
  cbn [map]. rewrite cat_cons, repr_line, !append_assoc.
  rewrite split_lines_line by (now apply line_single).
  now rewrite IH.
Qed.

Lemma not_in_lines (fs : list Field) :
  ~ In separator_line (map plantuml_entity_line fs).
Proof.
  intros H. apply in_map_iff in H as (f & Hf & _).
  exact (line_not_separator f Hf).
Qed.

Lemma forallb_app_inv {A : Type} (p : A -> bool) (l1 l2 : list A) :
  forallb p (l1 ++ l2) = true -> forallb p l1 = true /\ forallb p l2 = true.
Proof. rewrite forallb_app. apply andb_true_iff. Qed.

(** The lines of the entity block of a descriptor whose fields are a key
    run followed by a non-key run. *)
Lemma plantuml_lines (self : ModelDescriptor) (ks ns : list Field) :
  _fields self = ks ++ ns ->
  Forall (fun f => is_key f = true) ks ->
  Forall (fun f => is_key f = false) ns ->
  single_line_names self = true ->
  Py.split_lines (plantuml_text self) =
    (entity_head_line self :: map plantuml_entity_line ks)
    ++ (if Nat.eqb (length ks) 0 then [] else [separator_line])
    ++ map plantuml_entity_line ns ++ ["}"; ""].
Proof.
  intros Hf Hk Hn Hs. rewrite (plantuml_runs self ks ns Hf Hk Hn).
  unfold single_line_names in Hs. apply andb_true_iff in Hs as [Ht Hall].
  rewrite Hf in Hall. apply forallb_app_inv in Hall as [Hks Hns].
  unfold entity_head. fold (entity_head_line self).
  replace (("entity " +++ Django.db_table (_meta self) +++ " {" +++ Py.nl)
           +++ cat (map plantuml_entity_repr ks)
           +++ (if Nat.eqb (length ks) 0 then "" else separator)
           +++ cat (map plantuml_entity_repr ns) +++ "}" +++ Py.nl)
    with (entity_head_line self +++ Py.nl
          +++ cat (map plantuml_entity_repr ks)
          +++ (if Nat.eqb (length ks) 0 then "" else separator)
          +++ cat (map plantuml_entity_repr ns) +++ "}" +++ Py.nl +++ "")
    by (unfold entity_head_line; now rewrite !append_assoc).
  rewrite split_lines_line.
  2:{ unfold entity_head_line. rewrite !occurs_app.
      unfold single_line in Ht. apply negb_true_iff in Ht. now rewrite Ht. }
  rewrite (split_lines_fields ks _ Hks).
  cbn [app]. f_equal. f_equal.
  destruct (Nat.eqb (length ks) 0).
  - cbn [String.append app]. rewrite (split_lines_fields ns _ Hns).
    reflexivity.
  - change separator with (separator_line +++ Py.nl).
    rewrite (append_assoc separator_line).
    rewrite (split_lines_line separator_line) by reflexivity.
    cbn [app]. rewrite (split_lines_fields ns _ Hns). reflexivity.
Qed.

End SeparatorFacts.

Lemma not_in_tail (ns : list Field) :
  ~ In separator_line (map plantuml_entity_line ns ++ ["}"; ""]).
Proof.
  intros H. apply in_app_or in H as [H|[H|[H|[]]]].
  - exact (not_in_lines ns H).
  - discriminate H.
  - discriminate H.
Qed.

Lemma not_in_front (self : ModelDescriptor) (ks : list Field) :
  ~ In separator_line (entity_head_line self :: map plantuml_entity_line ks).
Proof.
  intros [H|H].
  - exact (head_not_separator self H).
  - exact (not_in_lines ks H).
Qed.

(** C2. Separator placement.  For a constructed descriptor with [k] key
    fields (primary or foreign key): the first [k] fields are the key
    fields and the others are not; the diagram text is the opening line,
    the lines of the first [k] fields, one separator if [k] is not 0 and
    none if it is, the lines of the other fields, and the closing line; no
    field line is the separator.  Read line by line (names and types
    holding no line feed): with [k = 0] no line is [--]; otherwise the [--]
    line comes after the opening line and exactly [k] field lines, and is
    the only one. *)
Theorem separator_placement (connections : Django.ConnectionHandler)
    (model : Django.Model) (self : ModelDescriptor) :
  __init__ connections model = inr self ->
  let k := length (filter is_key (_fields self)) in
  let keys := firstn k (_fields self) in
  let others := skipn k (_fields self) in
  Forall (fun f => is_key f = true) keys /\
  Forall (fun f => is_key f = false) others /\
  (forall f, plantuml_entity_repr f <> separator) /\
  exists text,
    plantuml_entity self = inr (text, self) /\
    text = entity_head self
           +++ cat (map plantuml_entity_repr keys)
           +++ (if Nat.eqb k 0 then "" else separator)
           +++ cat (map plantuml_entity_repr others)
           +++ "}" +++ Py.nl /\
    (single_line_names self = true ->
     (k = 0 -> ~ In separator_line (Py.split_lines text)) /\
     (0 < k ->
      exists after,
        Py.split_lines text =
          (entity_head_line self :: map plantuml_entity_line keys)
          ++ separator_line :: after /\
        length (map plantuml_entity_line keys) = k /\
        ~ In separator_line (entity_head_line self :: map plantuml_entity_line keys) /\
        ~ In separator_line after)).
Proof.
  intros H.
  destruct (init_success _ _ _ H) as (connection & declared & _ & _ & Hself).
  destruct (ordered_runs declared) as (ks & ns & Hruns & Hk & Hn).
  assert (_fields self = ks ++ ns) as Hf by (subst self; exact Hruns).
  cbv zeta. rewrite Hf.
  destruct (runs_filter ks ns Hk Hn) as [-> _].
  destruct (firstn_skipn_runs ks ns) as [-> ->].
  split; [exact Hk|]. split; [exact Hn|].
  split; [exact repr_not_separator|].
  exists (plantuml_text self). split; [apply plantuml_run|].
  split; [exact (plantuml_runs self ks ns Hf Hk Hn)|].
  intros Hs. rewrite (plantuml_lines self ks ns Hf Hk Hn Hs). split.
  - intros Hzero. rewrite Hzero. cbn [Nat.eqb app].
    destruct ks; [|discriminate Hzero]. cbn [map app].
    intros [Hin|Hin].
    + exact (head_not_separator self Hin).
    + exact (not_in_tail ns Hin).
  - intros Hpos. exists (map plantuml_entity_line ns ++ ["}"; ""]).
    destruct (Nat.eqb_spec (length ks) 0) as [E|_]; [lia|].
    repeat split.
    + apply length_map.
    + apply not_in_front.
    + apply not_in_tail.
Qed.

Lemma separator_placement_witness :
  plantuml_entity Example.orders_descriptor =
    inr ("entity orders {" +++ Py.nl
         +++ Py.tab +++ "id: PK, BIGINT" +++ Py.nl
         +++ Py.tab +++ "customer_id: FK, BIGINT" +++ Py.nl
         +++ Py.tab +++ "--" +++ Py.nl
         +++ Py.tab +++ "status: VARCHAR(20)" +++ Py.nl
         +++ "}" +++ Py.nl,
         Example.orders_descriptor) /\
  exists after,
    Py.split_lines (plantuml_text Example.orders_descriptor) =
      ["entity orders {"; Py.tab +++ "id: PK, BIGINT";
       Py.tab +++ "customer_id: FK, BIGINT"]
      ++ separator_line :: after /\
    ~ In separator_line after.
Proof.
  destruct (separator_placement Example.connections Example.orders
              Example.orders_descriptor eq_refl)
    as (_ & _ & _ & text & Hrun & Htext & Hlines).
  split.
  - rewrite Hrun, Htext. reflexivity.
  - destruct (Hlines eq_refl) as [_ Hpos].
    assert (text = plantuml_text Example.orders_descriptor) as Heq.
    { rewrite plantuml_run in Hrun. now injection Hrun as <-. }
    subst text.
    destruct Hpos as (after & Hsplit & _ & _ & Hafter).
    + cbn. lia.
    + exists after. split; [exact Hsplit | exact Hafter].
Defined.

(** * Further properties of [model_descriptor.py] *)

Section GroupFacts.

Lemma filter_filter_comm {A : Type} (p q : A -> bool) (l : list A) :
  filter p (filter q l) = filter (fun a => q a && p a) l.
Proof.
  induction l as [|x l IH]; [reflexivity|]. cbn [filter].
  destruct (q x); cbn [filter andb]; [destruct (p x)|]; now rewrite IH.
Qed.

(** The field list after the two sorts, as four groups. *)
Lemma ordered_groups (fs : list Field) :
  ordered fs =
    filter (same_flags true true) fs ++ filter (same_flags true false) fs
    ++ filter (same_flags false true) fs ++ filter (same_flags false false) fs.
Proof.
  unfold ordered. rewrite (sort_desc primary_key), (sort_desc foreign_key).
  rewrite !filter_app, !filter_filter_comm, <- !app_assoc.
  assert (forall g p q,
             (forall f, g f = same_flags p q f) ->
             filter g fs = filter (same_flags p q) fs) as Hgroup
    by (intros g p q Hg; now apply filter_ext).
  f_equal; [|f_equal; [|f_equal]]; apply Hgroup; intros f; unfold same_flags;
    destruct (primary_key f), (foreign_key f); reflexivity.
Qed.

Lemma filter_same_flags (p q p' q' : bool) (fs : list Field) :
  filter (same_flags p q) (filter (same_flags p' q') fs) =
    if Bool.eqb p p' && Bool.eqb q q' then filter (same_flags p' q') fs else [].
Proof.
  rewrite filter_filter_comm.
  destruct (Bool.eqb p p' && Bool.eqb q q') eqn:E.
  - apply andb_true_iff in E as [E1 E2]. apply eqb_prop in E1, E2. subst.
    apply filter_ext. intros f. now rewrite andb_diag.
  - apply filter_drop, Forall_forall. intros f _. unfold same_flags.
    destruct p, q, p', q', (primary_key f), (foreign_key f);
      try reflexivity; discriminate E.
Qed.

End GroupFacts.

(** X1. The field list of a constructed descriptor is made of four groups
    in this order: primary and foreign key, primary key only, foreign key
    only, neither; each group holds its fields in declaration order. *)
Theorem fields_in_four_groups (connections : Django.ConnectionHandler)
    (model : Django.Model) (self : ModelDescriptor) :
  __init__ connections model = inr self ->
  exists connection declared,
    Django.connections_getitem connections
      (Django.app_label (Django._meta model)) = inr connection /\
    make_fields connection (Django.fields (Django._meta model)) = inr declared /\
    _fields self =
      filter (same_flags true true) declared
      ++ filter (same_flags true false) declared
      ++ filter (same_flags false true) declared
      ++ filter (same_flags false false) declared.
Proof.
  intros H. destruct (init_success _ _ _ H) as (connection & declared & Hc & Hd & ->).
  exists connection, declared. repeat split; [exact Hc | exact Hd |].
  apply ordered_groups.
Qed.

Lemma fields_in_four_groups_witness :
  exists connection declared,
    Django.connections_getitem Example.connections
      (Django.app_label (Django._meta Example.orders)) = inr connection /\
    make_fields connection (Django.fields (Django._meta Example.orders)) = inr declared /\
    _fields Example.orders_descriptor =
      filter (same_flags true true) declared
      ++ filter (same_flags true false) declared
      ++ filter (same_flags false true) declared
      ++ filter (same_flags false false) declared.
Proof.
  apply (fields_in_four_groups Example.connections Example.orders
           Example.orders_descriptor).
  reflexivity.
Defined.

(** X2. Sorting a field list that went through the two sorts already
    changes nothing. *)
Theorem ordered_idempotent (fs : list Field) :
  ordered (ordered fs) = ordered fs.
Proof.
  rewrite (ordered_groups (ordered fs)), (ordered_groups fs).
  rewrite !filter_app, !filter_same_flags. cbn [Bool.eqb andb app].
  now rewrite !app_nil_r.
Qed.

(** X3. When [connections] has no entry for the application label, the
    constructor raises [ConnectionDoesNotExist] for that label, whatever
    the columns are; no column is converted. *)
Theorem unknown_alias_aborts (connections : Django.ConnectionHandler)
    (model : Django.Model) :
  (forall entry, In entry connections ->
                 fst entry <> Django.app_label (Django._meta model)) ->
  __init__ connections model
  = inl (Py.ConnectionDoesNotExist (Django.app_label (Django._meta model))).
Proof.
  intros Hnone. rewrite init_run. cbv zeta.
  assert (Django.connections_getitem connections
            (Django.app_label (Django._meta model))
          = inl (Py.ConnectionDoesNotExist (Django.app_label (Django._meta model))))
    as ->; [|reflexivity].
  induction connections as [|[a c] rest IH]; [reflexivity|].
  cbn [Django.connections_getitem].
  destruct (String.eqb_spec a (Django.app_label (Django._meta model))) as [E|_].
  - exfalso. apply (Hnone (a, c)); [now left | exact E].
  - apply IH. intros entry Hin. apply Hnone. now right.
Qed.

Lemma unknown_alias_aborts_witness :
  __init__ [("warehouse", Example.shop)] ExampleUntyped.events
  = inl (Py.ConnectionDoesNotExist "shop").
Proof.
  apply (unknown_alias_aborts [("warehouse", Example.shop)] ExampleUntyped.events).
  intros entry [<-|[]]. cbn. discriminate.
Defined.

Section LastKeyFacts.

Lemma last_key_index_cons (i : nat) (f : Field) (rest : list Field)
    (last : option nat) :
  last_key_index i (f :: rest) last
  = last_key_index (S i) rest (if is_key f then Some i else last).
Proof. reflexivity. Qed.

(** The first loop finds the position of the last key field. *)
Lemma last_key_index_last (pre post : list Field) (k : Field) (i : nat)
    (last : option nat) :
  is_key k = true ->
  Forall (fun f => is_key f = false) post ->
  last_key_index i (pre ++ k :: post) last = Some (i + length pre).
Proof.
  intros Hk Hpost. revert i last. induction pre as [|p pre IH]; intros i last.
  - cbn [app length]. rewrite last_key_index_cons, Hk.
    rewrite last_key_index_plain by exact Hpost. f_equal. lia.
  - change ((p :: pre) ++ k :: post) with (p :: (pre ++ k :: post)).
    rewrite last_key_index_cons, IH. cbn [length]. f_equal. lia.
Qed.

End LastKeyFacts.

(** X4. For every descriptor, in whatever order its fields are: the
    separator is written once, right after the line of the last field that
    is a primary or foreign key, also when fields that are no keys stand
    before it; without any key field no separator is written. *)
Theorem separator_after_last_key (self : ModelDescriptor) :
  (forall pre k post,
      _fields self = pre ++ k :: post ->
      is_key k = true ->
      Forall (fun f => is_key f = false) post ->
      plantuml_entity self =
        inr (entity_head self
             +++ cat (map plantuml_entity_repr (pre ++ [k]))
             +++ separator
             +++ cat (map plantuml_entity_repr post)
             +++ "}" +++ Py.nl,
             self)) /\
  (Forall (fun f => is_key f = false) (_fields self) ->
   plantuml_entity self =
     inr (entity_head self
          +++ cat (map plantuml_entity_repr (_fields self))
          +++ "}" +++ Py.nl,
          self)).
Proof.
  split.
  - intros pre k post Hf Hk Hpost. rewrite plantuml_run.
    unfold plantuml_text. rewrite Hf.
    rewrite (last_key_index_last pre post k 0 None Hk Hpost).
    change (pre ++ k :: post) with (pre ++ [k] ++ post). rewrite app_assoc.
    replace (0 + length pre) with (0 + length (pre ++ [k]) - 1)
      by (rewrite length_app; cbn [length]; lia).
    rewrite entity_body_runs by (destruct pre; discriminate).
    now rewrite !append_assoc.
  - intros Hnone. rewrite plantuml_run. unfold plantuml_text.
    rewrite (last_key_index_plain _ 0 None Hnone).
    rewrite entity_body_plain by reflexivity.
    reflexivity.
Qed.

Lemma separator_after_last_key_witness :
  plantuml_entity ExampleUnordered.shuffled =
    inr ("entity orders {" +++ Py.nl
         +++ Py.tab +++ "status: VARCHAR(20)" +++ Py.nl
         +++ Py.tab +++ "id: PK, BIGINT" +++ Py.nl
         +++ Py.tab +++ "customer_id: FK, BIGINT" +++ Py.nl
         +++ Py.tab +++ "--" +++ Py.nl
         +++ Py.tab +++ "status: VARCHAR(20)" +++ Py.nl
         +++ "}" +++ Py.nl,
         ExampleUnordered.shuffled) /\
  plantuml_entity ExampleEmpty.blank_descriptor =
    inr ("entity blank {" +++ Py.nl +++ "}" +++ Py.nl, ExampleEmpty.blank_descriptor).
Proof.
  split.
  - destruct (separator_after_last_key ExampleUnordered.shuffled) as [Hlast _].
    rewrite (Hlast [Example.f_status; Example.f_id] Example.f_customer
               [Example.f_status] eq_refl eq_refl).
    + reflexivity.
    + repeat constructor.
  - destruct (separator_after_last_key ExampleEmpty.blank_descriptor) as [_ Hnone].
    rewrite Hnone; [reflexivity | constructor].
Defined.

Section MarkdownLineFacts.

Lemma occurs_subst_char (c d : ascii) (new s : string) :
  occurs c new = false ->
  occurs c s = false ->
  occurs c (subst_char d new s) = false.
Proof.
  intros Hnew. induction s as [|x s IH]; intros Hs; [reflexivity|].
  cbn [occurs] in Hs. apply orb_false_iff in Hs as [Hx Hs].
  cbn [subst_char]. destruct (Ascii.eqb x d).
  - now rewrite occurs_app, Hnew, IH.
  - cbn [occurs]. now rewrite Hx, IH.
Qed.

(** Rows that end in a line feed and hold no other one are the lines of
    their concatenation. *)
Lemma split_lines_rows {A : Type} (row line : A -> string) (l : list A)
    (rest : string) :
  (forall x, row x = line x +++ Py.nl) ->
  Forall (fun x => occurs Py.LF (line x) = false) l ->
  Py.split_lines (cat (map row l) +++ rest)
  = map line l ++ Py.split_lines rest.
Proof.
  intros Hrow Hall. induction Hall as [|x l Hx _ IH]; [reflexivity|].
  cbn [map]. rewrite cat_cons, Hrow, !append_assoc.
  rewrite split_lines_line by exact Hx. now rewrite IH.
Qed.

Lemma markdown_repr_line (f : Field) :
  markdown_repr f = markdown_line f +++ Py.nl.
Proof. unfold markdown_repr, markdown_line. now rewrite !append_assoc. Qed.

Lemma index_row_line (s : string) : index_row s = index_line s +++ Py.nl.
Proof. unfold index_row, index_line. now rewrite !append_assoc. Qed.

Lemma unique_row_line (s : string) : unique_row s = unique_line s +++ Py.nl.
Proof. unfold unique_row, unique_line. now rewrite !append_assoc. Qed.

Lemma single_line_false (s : string) :
  single_line s = true -> occurs Py.LF s = false.
Proof. unfold single_line. apply negb_true_iff. Qed.

Lemma markdown_line_single (f : Field) :
  single_line (name f) && single_line (db_type f) && single_line (description f)
  = true ->
  occurs Py.LF (markdown_line f) = false.
Proof.
  intros H. apply andb_true_iff in H as [H Hd]. apply andb_true_iff in H as [Hn Ht].
  apply single_line_false in Hn, Ht, Hd.
  unfold markdown_line. rewrite !occurs_app, Hn, Ht, Hd.
  destruct (primary_key f), (foreign_key f); reflexivity.
Qed.

Lemma index_line_single (s : string) :
  single_line s = true -> occurs Py.LF (index_line s) = false.
Proof.
  intros H. apply single_line_false in H.
  unfold index_line. rewrite replace_char, !occurs_app.
  rewrite (occurs_subst_char Py.LF "," ", " s eq_refl H). reflexivity.
Qed.

Lemma unique_line_single (s : string) :
  single_line s = true -> occurs Py.LF (unique_line s) = false.
Proof.
  intros H. apply single_line_false in H.
  unfold unique_line. rewrite replace_char, !occurs_app.
  rewrite (occurs_subst_char Py.LF "," ", " s eq_refl H). reflexivity.
Qed.

Lemma forallb_Forall_lines {A : Type} (ok : A -> bool) (line : A -> string)
    (l : list A) :
  (forall x, ok x = true -> occurs Py.LF (line x) = false) ->
  forallb ok l = true ->
  Forall (fun x => occurs Py.LF (line x) = false) l.
Proof.
  intros Hok H. apply Forall_forall. intros x Hin.
  apply Hok. rewrite forallb_forall in H. now apply H.
Qed.

End MarkdownLineFacts.

(** X5. Read line by line, the markdown text of a descriptor whose copied
    texts hold no line feed is: the heading, the description, an empty
    line, the schema title and the two lines of the table head, one line
    per field in field order, two empty lines, the additional-info title
    and table head, one line per index entry, one line per uniqueness
    entry. *)
Theorem markdown_line_by_line (self : ModelDescriptor) :
  markdown_single_line self = true ->
  exists text,
    markdown self = inr (text, self) /\
    Py.split_lines text =
      ["## " +++ Django.db_table (_meta self);
       _model_description self;
       "";
       "#### schema";
       "| field_name | type | description |";
       "|---|---|---|"]
      ++ map markdown_line (_fields self)
      ++ [""; ""; "#### additional info";
          "| type | value | description |";
          "|---|---|---|"]
      ++ map index_line (_db_indexes self)
      ++ map unique_line (_unique_constraints self)
      ++ [""].
Proof.
  intros H. unfold markdown_single_line in H.
  apply andb_true_iff in H as [H Hu]. apply andb_true_iff in H as [H Hi].
  apply andb_true_iff in H as [H Hf]. apply andb_true_iff in H as [Ht Hd].
  apply single_line_false in Ht, Hd.
  exists (markdown_text self). split; [apply markdown_run|].
  set (lines :=
         ["## " +++ Django.db_table (_meta self);
          _model_description self;
          "";
          "#### schema";
          "| field_name | type | description |";
          "|---|---|---|"]
         ++ map markdown_line (_fields self)
         ++ [""; ""; "#### additional info";
             "| type | value | description |";
             "|---|---|---|"]
         ++ map index_line (_db_indexes self)
         ++ map unique_line (_unique_constraints self)).
  assert (markdown_text self = cat (map (fun l => l +++ Py.nl) lines) +++ "") as ->.
  { unfold lines, markdown_text, schema_head, info_head.
    rewrite !map_app, !cat_app, !map_map.
    rewrite (map_ext _ _ (fun f => eq_sym (markdown_repr_line f))).
    rewrite (map_ext _ _ (fun x => eq_sym (index_row_line x))).
    rewrite (map_ext _ _ (fun x => eq_sym (unique_row_line x))).
    cbn [map]. rewrite !cat_cons. change (cat []) with "".
    now rewrite !append_assoc, !append_nil_r. }
  rewrite (split_lines_rows (fun l => l +++ Py.nl) (fun l => l)).
  - rewrite map_id. unfold lines. now rewrite <- !app_assoc.
  - reflexivity.
  - unfold lines.
    apply Forall_app; split; [|apply Forall_app; split;
      [|apply Forall_app; split; [|apply Forall_app; split]]].
    + constructor; [rewrite occurs_app, Ht; reflexivity|].
      constructor; [exact Hd|].
      repeat (constructor; [reflexivity|]). constructor.
    + apply Forall_map.
      exact (forallb_Forall_lines _ _ _ markdown_line_single Hf).
    + repeat (constructor; [reflexivity|]). constructor.
    + apply Forall_map.
      exact (forallb_Forall_lines _ _ _ index_line_single Hi).
    + apply Forall_map.
      exact (forallb_Forall_lines _ _ _ unique_line_single Hu).
Qed.

Lemma markdown_line_by_line_witness :
  exists text,
    markdown Example.orders_descriptor = inr (text, Example.orders_descriptor) /\
    Py.split_lines text =
      ["## orders"; "Customerorderheader"; ""; "#### schema";
       "| field_name | type | description |"; "|---|---|---|";
       "| id | PK, BIGINT | ID |";
       "| customer_id | FK, BIGINT |  |";
       "| status | VARCHAR(20) |  |";
       ""; ""; "#### additional info";
       "| type | value | description |"; "|---|---|---|";
       "| index | customer_id | |";
       "| index | status, customer_id | |";
       "| unique | status | |";
       ""].
Proof.
  exact (markdown_line_by_line Example.orders_descriptor eq_refl).
Defined.

Section UpperFacts.




End UpperFacts.



(** * Properties of [orm_query_utils.py] *)

Section GetitemFacts.

Lemma getitem_from_end {A : Type} (l : list A) (n : nat) (x : A) :
  1 <= n <= length l ->
  nth_error l (length l - n) = Some x ->
  Orm.list_getitem l (- Z.of_nat n) = inr x.
Proof.
  intros Hn Hx. unfold Orm.list_getitem. cbv zeta.
  assert ((- Z.of_nat n <? 0)%Z = true) as -> by (apply Z.ltb_lt; lia).
  assert (((0 <=? - Z.of_nat n + Z.of_nat (length l))%Z
           && (- Z.of_nat n + Z.of_nat (length l) <? Z.of_nat (length l))%Z)%bool
          = true) as ->.
  { apply andb_true_iff. split; [apply Z.leb_le | apply Z.ltb_lt]; lia. }
  replace (Z.to_nat (- Z.of_nat n + Z.of_nat (length l))) with (length l - n) by lia.
  now rewrite Hx.
Qed.

Lemma getitem_before_start {A : Type} (l : list A) (n : Z) :
  (1 <= n)%Z -> (Z.of_nat (length l) < n)%Z ->
  Orm.list_getitem l (- n) = inl Orm.IndexError.
Proof.
  intros H1 Hn. unfold Orm.list_getitem. cbv zeta.
  assert ((- n <? 0)%Z = true) as -> by (apply Z.ltb_lt; lia).
  assert ((0 <=? - n + Z.of_nat (length l))%Z = false) as ->
      by (apply Z.leb_gt; lia).
  reflexivity.
Qed.

Lemma skipn_nth_error {A : Type} (l : list A) (i : nat) (x : A) :
  nth_error l i = Some x -> skipn i l = x :: skipn (S i) l.
Proof.
  revert i. induction l as [|y l IH]; intros [|i] H; try discriminate.
  - cbn in H. now injection H as ->.
  - cbn [skipn]. now apply IH.
Qed.

Lemma range_down_succ (k : nat) :
  Orm.range_down (Z.of_nat (S k)) 0
  = Z.of_nat (S k) :: Orm.range_down (Z.of_nat k) 0.
Proof.
  unfold Orm.range_down.
  replace (Z.to_nat (Z.of_nat (S k) - 0)) with (S k) by lia.
  replace (Z.to_nat (Z.of_nat k - 0)) with k by lia.
  cbn [seq map]. rewrite <- seq_shift, map_map.
  replace (Z.of_nat (S k) - Z.of_nat 0)%Z with (Z.of_nat (S k)) by lia.
  f_equal. apply map_ext. intros a. lia.
Qed.

Lemma printed_printed (w : Orm.World) (a b : string) :
  printed (printed w a) b = printed w (a +++ b).
Proof. unfold printed. cbn. now rewrite append_assoc. Qed.

Lemma printed_nothing (w : Orm.World) : printed w "" = w.
Proof. unfold printed. rewrite append_nil_r. now destruct w. Qed.

End GetitemFacts.

Section PrintFacts.

Variable env : Orm.Env.

(** One call for the query [q] at position [length - n] of a MySQL log. *)
Lemma print_last_mysql (c : Orm.Connection) (n : nat) (q : Orm.Query)
    (pretty_print : bool) (w : Orm.World) :
  Orm.display_name c = "MySQL" ->
  1 <= n <= length (Orm.queries c) ->
  nth_error (Orm.queries c) (length (Orm.queries c) - n) = Some q ->
  Orm.print_last_n_sql env c (Z.of_nat n) pretty_print w
  = (inr tt, printed w (shown env pretty_print (Orm.sql q) +++ Py.nl)).
Proof.
  intros Hv Hn Hq. unfold Orm.print_last_n_sql, Orm.bind, Orm.assert.
  assert ((1 <=? Z.of_nat n)%Z = true) as -> by (apply Z.leb_le; lia).
  cbn [Orm.ret]. rewrite Hv. cbn [String.eqb].
  change (("MySQL" =? "MySQL")%string) with true. cbv iota.
  unfold Orm._print_last_n_sql_for_mysql, Orm.bind, Orm.lift, Orm.last_sql.
  rewrite (getitem_from_end _ _ _ Hn Hq).
  destruct pretty_print; reflexivity.
Qed.

(** The loop of [print_latest_n_sqls] over the last [n] queries. *)
Lemma print_loop_mysql (c : Orm.Connection) (pretty_print : bool) (n : nat)
    (w : Orm.World) :
  Orm.display_name c = "MySQL" ->
  n <= length (Orm.queries c) ->
  Orm.for_each (Orm.range_down (Z.of_nat n) 0)
    (fun i =>
       Orm.bind (Orm.print_last_n_sql env c i pretty_print)
         (fun _ => Orm.print "" (Py.nl +++ Py.nl))) w
  = (inr tt,
     printed w (query_dump env pretty_print
                  (skipn (length (Orm.queries c) - n) (Orm.queries c)))).
Proof.
  intros Hv. revert w. induction n as [|k IH]; intros w Hn.
  - cbn [Orm.range_down]. rewrite Nat.sub_0_r, skipn_all.
    cbn. now rewrite printed_nothing.
  - rewrite range_down_succ. cbn [Orm.for_each]. unfold Orm.bind at 1.
    destruct (nth_error (Orm.queries c) (length (Orm.queries c) - S k))
      as [q|] eqn:Hq.
    2:{ apply nth_error_None in Hq. lia. }
    unfold Orm.bind at 1.
    rewrite (print_last_mysql c (S k) q pretty_print w Hv (conj (le_n_S _ _ (Nat.le_0_l k)) Hn) Hq).
    unfold Orm.print at 1. rewrite IH by lia.
    rewrite (skipn_nth_error _ _ _ Hq).
    replace (S (length (Orm.queries c) - S k)) with (length (Orm.queries c) - k) by lia.
    unfold query_dump. cbn [map]. rewrite cat_cons.
    f_equal. unfold printed, query_block. cbn [Orm.stdout Orm.connections].
    f_equal. now rewrite !append_assoc.
Qed.

End PrintFacts.

(** X7. On a MySQL connection, [print_latest_n_sqls] with
    [1 <= last_n <= len(queries)] returns after writing the last [last_n]
    queries of the log, the oldest of them first, each followed by three
    line feeds; the texts go through [sqlparse.format] exactly when
    [pretty_print] is set. *)
Theorem latest_queries_oldest_first (env : Orm.Env) (c : Orm.Connection)
    (last_n : Z) (pretty_print : bool) (w : Orm.World) :
  Orm.display_name c = "MySQL" ->
  (1 <= last_n <= Z.of_nat (length (Orm.queries c)))%Z ->
  Orm.print_latest_n_sqls env c last_n pretty_print w
  = (inr tt,
     printed w (query_dump env pretty_print
                  (skipn (length (Orm.queries c) - Z.to_nat last_n)
                     (Orm.queries c)))).
Proof.
  intros Hv Hn. unfold Orm.print_latest_n_sqls, Orm.bind at 1, Orm.assert.
  assert ((1 <=? last_n)%Z = true) as -> by (apply Z.leb_le; lia).
  cbn [Orm.ret].
  rewrite <- (Z2Nat.id last_n) at 1 by lia.
  apply print_loop_mysql; [exact Hv | lia].
Qed.

Lemma latest_queries_oldest_first_witness :
  Orm.print_latest_n_sqls ExampleOrm.env ExampleOrm.mysql 2 false ExampleOrm.world
  = (inr tt,
     printed ExampleOrm.world
       ("select 2" +++ Py.nl +++ Py.nl +++ Py.nl
        +++ "select 3" +++ Py.nl +++ Py.nl +++ Py.nl)).
Proof.
  rewrite (latest_queries_oldest_first ExampleOrm.env ExampleOrm.mysql 2 false
             ExampleOrm.world eq_refl).
  - reflexivity.
  - cbn. lia.
Defined.

Section PrintErrorFacts.

Variable env : Orm.Env.

Lemma range_down_first (n : Z) :
  (1 <= n)%Z -> exists rest, Orm.range_down n 0 = n :: rest.
Proof.
  intros Hn. rewrite <- (Z2Nat.id n) by lia.
  destruct (Z.to_nat n) as [|k] eqn:E; [lia|].
  rewrite range_down_succ. now eexists.
Qed.

(** The first call of the loop decides when it raises. *)
Lemma print_latest_first_raises (c : Orm.Connection) (n : Z)
    (pretty_print : bool) (w : Orm.World) (e : Orm.exn) :
  (1 <= n)%Z ->
  Orm.print_last_n_sql env c n pretty_print w = (inl e, w) ->
  Orm.print_latest_n_sqls env c n pretty_print w = (inl e, w).
Proof.
  intros Hn He. unfold Orm.print_latest_n_sqls, Orm.bind at 1, Orm.assert.
  assert ((1 <=? n)%Z = true) as -> by (apply Z.leb_le; lia).
  cbn [Orm.ret]. destruct (range_down_first n Hn) as [rest ->].
  cbn [Orm.for_each]. unfold Orm.bind at 1. unfold Orm.bind at 1.
  now rewrite He.
Qed.

Lemma print_last_out_of_range (c : Orm.Connection) (n : Z)
    (pretty_print : bool) (w : Orm.World) :
  supported c = true ->
  (1 <= n)%Z -> (Z.of_nat (length (Orm.queries c)) < n)%Z ->
  Orm.print_last_n_sql env c n pretty_print w = (inl Orm.IndexError, w).
Proof.
  intros Hs H1 Hn. unfold Orm.print_last_n_sql, Orm.bind, Orm.assert.
  assert ((1 <=? n)%Z = true) as -> by (apply Z.leb_le; lia).
  cbn [Orm.ret]. unfold supported in Hs.
  destruct (String.eqb (Orm.display_name c) "MySQL").
  - unfold Orm._print_last_n_sql_for_mysql, Orm.bind, Orm.lift, Orm.last_sql.
    now rewrite (getitem_before_start _ _ H1 Hn).
  - cbn [orb] in Hs. rewrite Hs.
    unfold Orm._print_last_n_sql_for_sql_server, Orm.bind, Orm.lift, Orm.last_sql.
    now rewrite (getitem_before_start _ _ H1 Hn).
Qed.

Lemma print_last_unsupported (c : Orm.Connection) (n : Z)
    (pretty_print : bool) (w : Orm.World) :
  supported c = false ->
  (1 <= n)%Z ->
  Orm.print_last_n_sql env c n pretty_print w = (inl (not_implemented c), w).
Proof.
  intros Hs H1. unfold Orm.print_last_n_sql, Orm.bind, Orm.assert.
  assert ((1 <=? n)%Z = true) as -> by (apply Z.leb_le; lia).
  cbn [Orm.ret]. unfold supported in Hs.
  apply orb_false_iff in Hs as [-> ->]. reflexivity.
Qed.

End PrintErrorFacts.

(** X8. Asking a MySQL or SQL Server connection for more queries than its
    log holds raises [IndexError] before anything is written: the first
    query looked up is the one [last_n] places from the end. *)
Theorem more_than_logged_raises (env : Orm.Env) (c : Orm.Connection)
    (last_n : Z) (pretty_print : bool) (w : Orm.World) :
  supported c = true ->
  (1 <= last_n)%Z ->
  (Z.of_nat (length (Orm.queries c)) < last_n)%Z ->
  Orm.print_last_n_sql env c last_n pretty_print w = (inl Orm.IndexError, w) /\
  Orm.print_latest_n_sqls env c last_n pretty_print w = (inl Orm.IndexError, w).
Proof.
  intros Hs H1 Hn.
  pose proof (print_last_out_of_range env c last_n pretty_print w Hs H1 Hn) as H.
  split; [exact H|]. now apply print_latest_first_raises.
Qed.

Lemma more_than_logged_raises_witness :
  Orm.print_last_n_sql ExampleOrm.env ExampleOrm.mysql 4 true ExampleOrm.world
  = (inl Orm.IndexError, ExampleOrm.world) /\
  Orm.print_latest_n_sqls ExampleOrm.env ExampleOrm.mysql 4 true ExampleOrm.world
  = (inl Orm.IndexError, ExampleOrm.world).
Proof.
  apply (more_than_logged_raises ExampleOrm.env ExampleOrm.mysql 4 true
           ExampleOrm.world).
  - reflexivity.
  - lia.
  - cbn. lia.
Defined.

(** X9. Both printing functions check their arguments before they write:
    with [last_n < 1] they raise [AssertionError] whatever the vendor is,
    and with [last_n >= 1] on a vendor other than MySQL and SQL Server they
    raise [NotImplementedError] naming the vendor, also when the log is
    empty.  Standard output is as it was. *)
Theorem printing_checks_first (env : Orm.Env) (c : Orm.Connection)
    (last_n : Z) (pretty_print : bool) (w : Orm.World) :
  ((last_n < 1)%Z ->
   Orm.print_last_n_sql env c last_n pretty_print w = (inl Orm.AssertionError, w) /\
   Orm.print_latest_n_sqls env c last_n pretty_print w = (inl Orm.AssertionError, w)) /\
  ((1 <= last_n)%Z -> supported c = false ->
   Orm.print_last_n_sql env c last_n pretty_print w = (inl (not_implemented c), w) /\
   Orm.print_latest_n_sqls env c last_n pretty_print w = (inl (not_implemented c), w)).
Proof.
  split.
  - intros Hn.
    unfold Orm.print_last_n_sql, Orm.print_latest_n_sqls, Orm.bind, Orm.assert.
    assert ((1 <=? last_n)%Z = false) as -> by (apply Z.leb_gt; lia).
    split; reflexivity.
  - intros H1 Hs.
    pose proof (print_last_unsupported env c last_n pretty_print w Hs H1) as H.
    split; [exact H|]. now apply print_latest_first_raises.
Qed.

Lemma printing_checks_first_witness :
  (Orm.print_last_n_sql ExampleOrm.env ExampleOrm.mysql 0 true ExampleOrm.world
   = (inl Orm.AssertionError, ExampleOrm.world) /\
   Orm.print_latest_n_sqls ExampleOrm.env ExampleOrm.mysql 0 true ExampleOrm.world
   = (inl Orm.AssertionError, ExampleOrm.world)) /\
  (Orm.print_last_n_sql ExampleOrm.env ExampleOrm.oracle 5 true ExampleOrm.world
   = (inl (Orm.NotImplementedError "vendor Oracle not implemented"),
      ExampleOrm.world) /\
   Orm.print_latest_n_sqls ExampleOrm.env ExampleOrm.oracle 5 true ExampleOrm.world
   = (inl (Orm.NotImplementedError "vendor Oracle not implemented"),
      ExampleOrm.world)).
Proof.
  split.
  - apply (printing_checks_first ExampleOrm.env ExampleOrm.mysql 0 true
             ExampleOrm.world). lia.
  - apply (printing_checks_first ExampleOrm.env ExampleOrm.oracle 5 true
             ExampleOrm.world); [lia | reflexivity].
Defined.

Section DecoratorFacts.

Variable env : Orm.Env.

Lemma find_entry (conns : list (string * Orm.Connection)) (a : string)
    (c : Orm.Connection) :
  NoDup (map fst conns) ->
  In (a, c) conns ->
  List.find (fun entry => String.eqb (fst entry) a) conns = Some (a, c).
Proof.
  induction conns as [|[b d] rest IH]; intros Hnd Hin; [contradiction|].
  cbn [map fst] in Hnd. inversion Hnd as [|? ? Hb Hrest]; subst.
  cbn [List.find fst]. destruct Hin as [E|Hin].
  - injection E as -> ->. now rewrite String.eqb_refl.
  - destruct (String.eqb_spec b a) as [->|_]; [|now apply IH].
    exfalso. apply Hb. apply in_map_iff. now exists (a, c).
Qed.

Lemma getitem_entry (w : Orm.World) (a : string) (c : Orm.Connection) :
  NoDup (map fst (Orm.connections w)) ->
  In (a, c) (Orm.connections w) ->
  Orm.connections_getitem a w = (inr c, w).
Proof.
  intros Hnd Hin. unfold Orm.connections_getitem.
  now rewrite (find_entry _ _ _ Hnd Hin).
Qed.

Lemma print_latest_all_mysql (c : Orm.Connection) (w : Orm.World) :
  Orm.display_name c = "MySQL" ->
  Orm.queries c <> [] ->
  Orm.print_latest_n_sqls env c (Z.of_nat (length (Orm.queries c))) true w
  = (inr tt, printed w (query_dump env true (Orm.queries c))).
Proof.
  intros Hv Hne. unfold Orm.print_latest_n_sqls, Orm.bind at 1, Orm.assert.
  assert ((1 <=? Z.of_nat (length (Orm.queries c)))%Z = true) as ->.
  { apply Z.leb_le. destruct (Orm.queries c); [congruence | cbn [length]; lia]. }
  cbn [Orm.ret]. rewrite (print_loop_mysql env c true _ w Hv (le_n _)).
  now rewrite Nat.sub_diag.
Qed.

Lemma dump_step_mysql (w : Orm.World) (a : string) (c : Orm.Connection) :
  NoDup (map fst (Orm.connections w)) ->
  In (a, c) (Orm.connections w) ->
  Orm.display_name c = "MySQL" ->
  dump_step env a w = (inr tt, printed w (query_dump env true (Orm.queries c))).
Proof.
  intros Hnd Hin Hv. unfold dump_step, Orm.bind at 1.
  rewrite (getitem_entry w a c Hnd Hin). cbv zeta.
  destruct (Orm.queries c) as [|q qs] eqn:Eq.
  - cbn. now rewrite printed_nothing.
  - assert ((0 <? Z.of_nat (length (q :: qs)))%Z = true) as ->
        by (apply Z.ltb_lt; cbn [length]; lia).
    unfold Orm.bind. rewrite (getitem_entry w a c Hnd Hin).
    rewrite <- Eq. apply print_latest_all_mysql; [exact Hv | congruence].
Qed.

Lemma dump_step_unsupported (w : Orm.World) (a : string) (c : Orm.Connection) :
  NoDup (map fst (Orm.connections w)) ->
  In (a, c) (Orm.connections w) ->
  supported c = false ->
  Orm.queries c <> [] ->
  dump_step env a w = (inl (not_implemented c), w).
Proof.
  intros Hnd Hin Hs Hne. unfold dump_step, Orm.bind at 1.
  rewrite (getitem_entry w a c Hnd Hin). cbv zeta.
  assert ((0 <? Z.of_nat (length (Orm.queries c)))%Z = true) as Hpos.
  { apply Z.ltb_lt. destruct (Orm.queries c); [congruence | cbn [length]; lia]. }
  rewrite Hpos. unfold Orm.bind. rewrite (getitem_entry w a c Hnd Hin).
  apply print_latest_first_raises; [apply Z.ltb_lt in Hpos; lia|].
  apply print_last_unsupported; [exact Hs | apply Z.ltb_lt in Hpos; lia].
Qed.

(** The loop over MySQL connections writes their logs in handler order. *)
Lemma dump_loop_mysql (part : list (string * Orm.Connection)) (w : Orm.World) :
  NoDup (map fst (Orm.connections w)) ->
  incl part (Orm.connections w) ->
  Forall (fun entry => Orm.display_name (snd entry) = "MySQL") part ->
  Orm.for_each (map fst part) (dump_step env) w
  = (inr tt, printed w (connections_dump env part)).
Proof.
  revert w. induction part as [|[a c] rest IH]; intros w Hnd Hincl Hall.
  - cbn. now rewrite printed_nothing.
  - inversion Hall as [|? ? Hv Hrest]; subst. cbn [snd] in Hv.
    cbn [map fst Orm.for_each]. unfold Orm.bind at 1.
    rewrite (dump_step_mysql w a c Hnd (Hincl _ (or_introl eq_refl)) Hv).
    rewrite IH.
    + rewrite printed_printed. unfold connections_dump. cbn [map snd].
      now rewrite cat_cons.
    + exact Hnd.
    + intros entry Hin. apply Hincl. now right.
    + exact Hrest.
Qed.

Lemma for_each_app {A : Type} (l1 l2 : list A) (body : A -> Orm.IO unit)
    (w : Orm.World) :
  Orm.for_each (l1 ++ l2) body w
  = Orm.bind (Orm.for_each l1 body) (fun _ => Orm.for_each l2 body) w.
Proof.
  revert w. induction l1 as [|x l1 IH]; intros w; [reflexivity|].
  cbn [app Orm.for_each]. unfold Orm.bind.
  destruct (body x w) as [[e|[]] w']; [reflexivity|].
  rewrite IH. reflexivity.
Qed.

(** The decorator, with its loop body named. *)
Lemma debug_print_queries_run {R : Type} (func_name : string) (func : Orm.IO R)
    (w : Orm.World) :
  Orm.debug_print_queries env func_name func w =
    match func w with
    | (inl e, w1) => (inl e, w1)
    | (inr res, w1) =>
        if Orm.DEBUG env then
          match Orm.for_each (map fst (Orm.connections w1)) (dump_step env)
                  (printed w1 (debug_header func_name)) with
          | (inl e, w2) => (inl e, w2)
          | (inr _, w2) =>
              (inr res,
               {| Orm.stdout := Orm.stdout w2 +++ debug_footer;
                  Orm.connections := cleared (Orm.connections w2) |})
          end
        else (inr res, w1)
    end.
Proof.
  unfold Orm.debug_print_queries, Orm.bind at 1.
  destruct (func w) as [[e|res] w1]; [reflexivity|].
  destruct (Orm.DEBUG env); [|reflexivity].
  set (X := Orm.for_each (map fst (Orm.connections w1)) (dump_step env)
              (printed w1 (debug_header func_name))).
  unfold Orm.bind at 1. unfold Orm.bind at 1. unfold Orm.print at 1.
  unfold Orm.bind at 1. unfold Orm.bind at 1.
  match goal with
  | |- context [Orm.for_each ?l ?f ?w0] => change (Orm.for_each l f w0) with X
  end.
  destruct X as [[e|[]] w2]; reflexivity.
Qed.

End DecoratorFacts.

(** X10. With [DEBUG] off, or when the decorated function raises, the
    decorated call is the call itself: same result or exception, same
    output, same query logs. *)
Theorem decorator_transparent {R : Type} (env : Orm.Env) (func_name : string)
    (func : Orm.IO R) (w : Orm.World) :
  Orm.DEBUG env = false \/ (exists e w1, func w = (inl e, w1)) ->
  Orm.debug_print_queries env func_name func w = func w.
Proof.
  intros H. rewrite debug_print_queries_run.
  destruct H as [Hoff|(e & w1 & Hraise)].
  - rewrite Hoff. now destruct (func w) as [[e|res] w1].
  - now rewrite Hraise.
Qed.

Lemma decorator_transparent_witness :
  Orm.debug_print_queries ExampleOrm.env "load"
    (Orm.raise (Orm.Raised "KeyError" "id") : Orm.IO nat) ExampleOrm.world
  = (inl (Orm.Raised "KeyError" "id"), ExampleOrm.world).
Proof.
  apply (decorator_transparent ExampleOrm.env "load"
           (Orm.raise (Orm.Raised "KeyError" "id") : Orm.IO nat) ExampleOrm.world).
  right. now exists (Orm.Raised "KeyError" "id"), ExampleOrm.world.
Defined.

(** X11. With [DEBUG] on and only MySQL connections: after the decorated
    function returned [res], the decorated call returns [res] too; it has
    written the header, then for every connection in handler order its
    whole query log, oldest query first and pretty printed, then the
    footer; and every query log is empty afterwards. *)
Theorem decorator_dumps_and_resets {R : Type} (env : Orm.Env)
    (func_name : string) (func : Orm.IO R) (w w1 : Orm.World) (res : R) :
  Orm.DEBUG env = true ->
  func w = (inr res, w1) ->
  NoDup (map fst (Orm.connections w1)) ->
  Forall (fun entry => Orm.display_name (snd entry) = "MySQL") (Orm.connections w1) ->
  Orm.debug_print_queries env func_name func w
  = (inr res,
     {| Orm.stdout :=
          Orm.stdout w1 +++ debug_header func_name
          +++ connections_dump env (Orm.connections w1) +++ debug_footer;
        Orm.connections := cleared (Orm.connections w1) |}).
Proof.
  intros Hon Hres Hnd Hall. rewrite debug_print_queries_run, Hres, Hon.
  rewrite (dump_loop_mysql env (Orm.connections w1)
             (printed w1 (debug_header func_name))).
  - unfold printed. cbn [Orm.stdout Orm.connections].
    now rewrite !append_assoc.
  - exact Hnd.
  - apply incl_refl.
  - exact Hall.
Qed.

Lemma decorator_dumps_and_resets_witness :
  Orm.debug_print_queries ExampleOrm.env "load" (Orm.ret 5) ExampleOrm.world
  = (inr 5,
     {| Orm.stdout :=
          "log:" +++ "function: load" +++ Py.nl +++ "----------------" +++ Py.nl
          +++ Py.nl
          +++ "SELECT 1" +++ Py.nl +++ Py.nl +++ Py.nl
          +++ "SELECT 2" +++ Py.nl +++ Py.nl +++ Py.nl
          +++ "SELECT 3" +++ Py.nl +++ Py.nl +++ Py.nl
          +++ Py.nl +++ "----------------" +++ Py.nl +++ Py.nl;
        Orm.connections :=
          [("default", {| Orm.display_name := "MySQL"; Orm.queries := [] |});
           ("replica", {| Orm.display_name := "MySQL"; Orm.queries := [] |})] |}).
Proof.
  rewrite (decorator_dumps_and_resets ExampleOrm.env "load" (Orm.ret 5)
             ExampleOrm.world ExampleOrm.world 5 eq_refl eq_refl).
  - reflexivity.
  - cbn. repeat constructor; cbn; intuition discriminate.
  - repeat constructor.
Defined.

(** X12. With [DEBUG] on, a connection of another vendor with a non-empty
    query log makes the decorated call raise [NotImplementedError] although
    the decorated function returned: the result is lost, the header and the
    logs of the MySQL connections before it are written, no footer is
    written and no query log is cleared. *)
Theorem decorator_unsupported_vendor {R : Type} (env : Orm.Env)
    (func_name : string) (func : Orm.IO R) (w w1 : Orm.World) (res : R)
    (before after : list (string * Orm.Connection)) (a : string)
    (c : Orm.Connection) :
  Orm.DEBUG env = true ->
  func w = (inr res, w1) ->
  Orm.connections w1 = before ++ (a, c) :: after ->
  NoDup (map fst (Orm.connections w1)) ->
  Forall (fun entry => Orm.display_name (snd entry) = "MySQL") before ->
  supported c = false ->
  Orm.queries c <> [] ->
  Orm.debug_print_queries env func_name func w
  = (inl (not_implemented c),
     printed w1 (debug_header func_name +++ connections_dump env before)).
Proof.
  intros Hon Hres Hsplit Hnd Hall Hs Hne.
  rewrite debug_print_queries_run, Hres, Hon.
  rewrite Hsplit at 1. rewrite map_app, for_each_app. unfold Orm.bind.
  rewrite (dump_loop_mysql env before (printed w1 (debug_header func_name))).
  - cbn [map fst Orm.for_each]. unfold Orm.bind.
    rewrite (dump_step_unsupported env _ a c); try assumption.
    + now rewrite printed_printed.
    + cbn [printed Orm.connections]. rewrite Hsplit.
      apply in_or_app. right. now left.
  - exact Hnd.
  - cbn [printed Orm.connections]. rewrite Hsplit.
    intros entry Hin. apply in_or_app. now left.
  - exact Hall.
Qed.

Lemma decorator_unsupported_vendor_witness :
  Orm.debug_print_queries ExampleOrm.env "load" (Orm.ret 5)
    ExampleOrm.world_with_oracle
  = (inl (Orm.NotImplementedError "vendor Oracle not implemented"),
     printed ExampleOrm.world_with_oracle
       (debug_header "load"
        +++ connections_dump ExampleOrm.env [("default", ExampleOrm.mysql)])).
Proof.
  apply (decorator_unsupported_vendor ExampleOrm.env "load" (Orm.ret 5)
           ExampleOrm.world_with_oracle ExampleOrm.world_with_oracle 5
           [("default", ExampleOrm.mysql)] [("replica", ExampleOrm.idle)]
           "legacy" ExampleOrm.oracle); try reflexivity.
  - cbn. repeat constructor; cbn; intuition discriminate.
  - repeat constructor.
  - discriminate.
Defined.

Section FormatFacts.

Lemma sanitized_params_map (params : list Orm.Param) (acc : list string) :
  fold_left (fun acc p => acc ++ [Orm.sanitize p]) params acc
  = acc ++ map Orm.sanitize params.
Proof.
  revert acc. induction params as [|p ps IH]; intros acc.
  - cbn. now rewrite app_nil_r.
  - cbn [fold_left map]. rewrite IH, <- app_assoc. reflexivity.
Qed.

(** Text without braces is copied. *)
Lemma format_plain (p rest : string) (args : list string) :
  brace_free p = true ->
  Orm.format_from Orm.Plain (p +++ rest) args =
    match Orm.format_from Orm.Plain rest args with
    | inl e => inl e
    | inr r => inr (p +++ r)
    end.
Proof.
  unfold brace_free. intros H. apply andb_true_iff in H as [Ho Hc].
  apply negb_true_iff in Ho, Hc.
  induction p as [|c p IH].
  - cbn. now destruct (Orm.format_from Orm.Plain rest args).
  - cbn [occurs] in Ho, Hc.
    apply orb_false_iff in Ho as [Ho1 Ho2]. apply orb_false_iff in Hc as [Hc1 Hc2].
    cbn [String.append Orm.format_from]. rewrite Ho1, Hc1, (IH Ho2 Hc2).
    now destruct (Orm.format_from Orm.Plain rest args).
Qed.

(** An empty replacement field takes the next argument. *)
Lemma format_field (rest : string) (args : list string) :
  Orm.format_from Orm.Plain ("{}" +++ rest) args =
    match args with
    | [] => inl Orm.IndexError
    | a :: more =>
        match Orm.format_from Orm.Plain rest more with
        | inl e => inl e
        | inr r => inr (a +++ r)
        end
    end.
Proof. reflexivity. Qed.

Lemma format_join (parts : list string) (args : list string) :
  parts <> [] ->
  Forall (fun p => brace_free p = true) parts ->
  Orm.format (Py.join "{}" parts) args =
    if Nat.leb (length parts - 1) (length args)
    then inr (weave parts args)
    else inl Orm.IndexError.
Proof.
  intros Hne Hall. unfold Orm.format. revert args.
  induction parts as [|p [|q ps] IH]; intros args; [congruence| |].
  - inversion Hall as [|? ? Hp _]; subst. cbn [Py.join String.concat length Nat.sub].
    rewrite <- (append_nil_r p) at 1. rewrite (format_plain p "" args Hp).
    cbn. now rewrite append_nil_r.
  - inversion Hall as [|? ? Hp Hrest]; subst.
    rewrite join_cons2, (format_plain p _ args Hp), format_field.
    destruct args as [|a more]; [reflexivity|].
    rewrite (IH ltac:(discriminate) Hrest more).
    cbn [length Nat.sub weave]. rewrite Nat.sub_0_r.
    change (Nat.leb (S (length ps)) (S (length more)))
      with (Nat.leb (length ps) (length more)).
    replace (length (q :: ps) - 1) with (length ps) by (cbn [length]; lia).
    now destruct (Nat.leb (length ps) (length more)).
Qed.

End FormatFacts.

(** X13. [_build_sql_with_params] on a format string made of brace-free
    pieces joined by [{}]: with at least as many parameters as fields the
    result is the pieces with the parameter texts between them, in order,
    a date or datetime between single quotes and any other parameter as
    [str] gives it, parameters left over being ignored; with fewer
    parameters it raises [IndexError]. *)
Theorem params_fill_fields (parts : list string) (params : list Orm.Param) :
  parts <> [] ->
  Forall (fun p => brace_free p = true) parts ->
  (length parts - 1 <= length params ->
   Orm._build_sql_with_params (Py.join "{}" parts) params
   = inr (weave parts (map Orm.sanitize params))) /\
  (length params < length parts - 1 ->
   Orm._build_sql_with_params (Py.join "{}" parts) params = inl Orm.IndexError).
Proof.
  intros Hne Hall. unfold Orm._build_sql_with_params. cbv zeta.
  rewrite sanitized_params_map. cbn [app].
  rewrite (format_join parts _ Hne Hall), length_map. split; intros H.
  - now apply Nat.leb_le in H as ->.
  - now apply Nat.leb_gt in H as ->.
Qed.

Lemma params_fill_fields_witness :
  Orm._build_sql_with_params "select * from t where id = {} and day = {}"
    [Orm.OtherParam "7"; Orm.DateParam "2020-01-31"; Orm.DecimalParam "1.5"]
  = inr "select * from t where id = 7 and day = '2020-01-31'" /\
  Orm._build_sql_with_params "select * from t where id = {} and day = {}"
    [Orm.OtherParam "7"]
  = inl Orm.IndexError.
Proof.
  destruct (params_fill_fields
              ["select * from t where id = "; " and day = "; ""]
              [Orm.OtherParam "7"; Orm.DateParam "2020-01-31"; Orm.DecimalParam "1.5"])
    as [Hfill _]; [discriminate | repeat constructor |].
  destruct (params_fill_fields
              ["select * from t where id = "; " and day = "; ""]
              [Orm.OtherParam "7"])
    as [_ Hfew]; [discriminate | repeat constructor |].
  split.
  - apply Hfill. cbn. lia.
  - apply Hfew. cbn. lia.
Defined.

Section SqlServerFacts.

Lemma replace_placeholder (rest : string) :
  Py.replace "%s" "{}" ("%s" +++ rest) = "{}" +++ Py.replace "%s" "{}" rest.
Proof. unfold Py.replace. cbn. now rewrite prefix_nil. Qed.

Lemma prefix_placeholder_inside (c : ascii) (p tail : string) :
  no_placeholder (String c p) = true ->
  String.prefix "%s" (String c (p +++ "%s" +++ tail)) = false.
Proof.
  cbn [no_placeholder String.prefix]. intros H.
  apply andb_true_iff in H as [H _]. apply negb_true_iff in H.
  destruct (ascii_dec "%" c) as [<-|_]; [|reflexivity].
  cbn [Ascii.eqb Bool.eqb andb] in H.
  destruct p as [|d p]; [reflexivity|].
  cbn [String.append String.prefix].
  destruct (ascii_dec "s" d) as [<-|_]; [|reflexivity].
  discriminate H.
Qed.

Lemma prefix_placeholder_end (c : ascii) (p : string) :
  no_placeholder (String c p) = true ->
  String.prefix "%s" (String c p) = false.
Proof.
  cbn [no_placeholder String.prefix]. intros H.
  apply andb_true_iff in H as [H _]. apply negb_true_iff in H.
  destruct (ascii_dec "%" c) as [<-|_]; [|reflexivity].
  cbn [Ascii.eqb Bool.eqb andb] in H.
  destruct p as [|d p]; [reflexivity|].
  cbn [String.prefix].
  destruct (ascii_dec "s" d) as [<-|_]; [|reflexivity].
  discriminate H.
Qed.

Lemma no_placeholder_tail (c : ascii) (p : string) :
  no_placeholder (String c p) = true -> no_placeholder p = true.
Proof. cbn [no_placeholder]. intros H. now apply andb_true_iff in H as [_ H]. Qed.

(** Replacing leaves a piece alone and turns the placeholder after it
    into an empty field. *)
Lemma replace_piece (p rest : string) :
  no_placeholder p = true ->
  Py.replace "%s" "{}" (p +++ "%s" +++ rest)
  = p +++ "{}" +++ Py.replace "%s" "{}" rest.
Proof.
  intros H. induction p as [|c p IH]; [apply replace_placeholder|].
  unfold Py.replace in *.
  change (String c p +++ "%s" +++ rest) with (String c (p +++ "%s" +++ rest)).
  cbn [Py.replace_from].
  rewrite (prefix_placeholder_inside c p rest H).
  now rewrite (IH (no_placeholder_tail c p H)).
Qed.

Lemma replace_last_piece (p : string) :
  no_placeholder p = true -> Py.replace "%s" "{}" p = p.
Proof.
  intros H. induction p as [|c p IH]; [reflexivity|].
  unfold Py.replace in *. cbn [Py.replace_from].
  rewrite (prefix_placeholder_end c p H).
  now rewrite (IH (no_placeholder_tail c p H)).
Qed.

Lemma replace_join (parts : list string) :
  Forall (fun p => no_placeholder p = true) parts ->
  Py.replace "%s" "{}" (Py.join "%s" parts) = Py.join "{}" parts.
Proof.
  induction parts as [|p [|q ps] IH]; intros Hall; [reflexivity| |].
  - inversion Hall; subst. now apply replace_last_piece.
  - inversion Hall as [|? ? Hp Hrest]; subst.
    rewrite !join_cons2, (replace_piece p _ Hp), (IH Hrest). reflexivity.
Qed.

(** The first quoted piece. *)
Lemma findall_open (acc body rest : string) :
  occurs Orm.quote body = false ->
  Orm.findall_quoted (Some acc)
    (body +++ String Orm.quote EmptyString +++ rest)
  = String Orm.quote ((acc +++ body) +++ String Orm.quote EmptyString)
    :: Orm.findall_quoted None rest.
Proof.
  revert acc. induction body as [|c body IH]; intros acc H.
  - cbn. now rewrite append_nil_r.
  - cbn [occurs] in H. apply orb_false_iff in H as [Hc Hb].
    cbn [String.append Orm.findall_quoted]. rewrite Hc, (IH _ Hb).
    now rewrite (append_assoc acc (String c "") body).
Qed.

Lemma findall_first (pre body rest : string) :
  occurs Orm.quote pre = false ->
  occurs Orm.quote body = false ->
  Orm.findall_quoted None
    (pre +++ String Orm.quote EmptyString +++ body
     +++ String Orm.quote EmptyString +++ rest)
  = String Orm.quote (body +++ String Orm.quote EmptyString)
    :: Orm.findall_quoted None rest.
Proof.
  intros Hpre Hbody. induction pre as [|c pre IH].
  - cbn [String.append Orm.findall_quoted]. rewrite Ascii.eqb_refl.
    apply (findall_open "" body rest Hbody).
  - cbn [occurs] in Hpre. apply orb_false_iff in Hpre as [Hc Hp].
    cbn [String.append Orm.findall_quoted]. rewrite Hc. now apply IH.
Qed.

Lemma rstrip_quoted (body : string) :
  occurs Orm.quote body = false ->
  Orm.rstrip Orm.quote (body +++ String Orm.quote EmptyString) = body.
Proof.
  induction body as [|c body IH]; intros H; [reflexivity|].
  cbn [occurs] in H. apply orb_false_iff in H as [Hc Hb].
  cbn [String.append Orm.rstrip]. rewrite (IH Hb), Hc.
  now destruct body.
Qed.

Lemma strip_quoted (body : string) :
  occurs Orm.quote body = false ->
  Orm.strip Orm.quote (String Orm.quote (body +++ String Orm.quote EmptyString))
  = body.
Proof.
  intros H. unfold Orm.strip. cbn [Orm.lstrip]. rewrite Ascii.eqb_refl.
  destruct body as [|c body]; [reflexivity|].
  pose proof H as H'. cbn [occurs] in H'. apply orb_false_iff in H' as [Hc _].
  cbn [String.append Orm.lstrip]. rewrite Hc.
  exact (rstrip_quoted (String c body) H).
Qed.

(** Fewer than two quotes give no quoted piece. *)
Lemma findall_open_none (acc s : string) :
  count_char Orm.quote s = 0 -> Orm.findall_quoted (Some acc) s = [].
Proof.
  revert acc. induction s as [|c s IH]; intros acc H; [reflexivity|].
  cbn [count_char] in H. cbn [Orm.findall_quoted].
  destruct (Ascii.eqb c Orm.quote); [discriminate H|]. now apply IH.
Qed.

Lemma findall_none (s : string) :
  count_char Orm.quote s <= 1 -> Orm.findall_quoted None s = [].
Proof.
  induction s as [|c s IH]; intros H; [reflexivity|].
  cbn [count_char] in H. cbn [Orm.findall_quoted].
  destruct (Ascii.eqb c Orm.quote).
  - apply findall_open_none. lia.
  - apply IH. exact H.
Qed.

End SqlServerFacts.

Section MarkerFacts.

Lemma prefix_self (s v : string) : String.prefix s (s +++ v) = true.
Proof.
  induction s as [|a s IH]; [apply prefix_nil|].
  cbn [String.append String.prefix].
  destruct (ascii_dec a a) as [_|N]; [exact IH | congruence].
Qed.

Lemma prefix_app_long (s u v : string) :
  String.length s <= String.length u ->
  String.prefix s (u +++ v) = String.prefix s u.
Proof.
  revert u. induction s as [|a s IH]; intros u H.
  - now rewrite !prefix_nil.
  - destruct u as [|b u]; [cbn in H; lia|].
    cbn [String.append String.prefix].
    destruct (ascii_dec a b); [|reflexivity].
    apply IH. cbn [String.length] in H. lia.
Qed.

Lemma find_from_unfold (sub s : string) (i : nat) :
  Orm.find_from sub s i =
    if String.prefix sub s then Some i
    else match s with
         | EmptyString => None
         | String _ s' => Orm.find_from sub s' (S i)
         end.
Proof. destruct s; reflexivity. Qed.

(** The first occurrence of the marker, when none starts earlier. *)
Lemma find_from_marker (init : string) (l : ascii) (a b : string) (i : nat) :
  Orm.find_from (init +++ String l "") (a +++ init) i = None ->
  Orm.find_from (init +++ String l "") (a +++ (init +++ String l "") +++ b) i
  = Some (i + String.length a).
Proof.
  revert i. induction a as [|c a IH]; intros i H.
  - rewrite find_from_unfold. cbn [String.append].
    rewrite prefix_self. cbn [String.length]. f_equal. lia.
  - rewrite find_from_unfold in H. rewrite find_from_unfold.
    destruct (String.prefix (init +++ String l "") (String c a +++ init)) eqn:E;
      [discriminate H|].
    cbn [String.append] in H.
    replace (String c a +++ (init +++ String l "") +++ b)
      with ((String c a +++ init) +++ (String l "" +++ b))
      by (now rewrite !append_assoc).
    rewrite prefix_app_long, E.
    + cbn [String.append].
      replace ((a +++ init) +++ String l b)
        with (a +++ (init +++ String l "") +++ b)
        by (now rewrite !append_assoc).
      rewrite (IH (S i) H). cbn [String.length]. f_equal. lia.
    + rewrite !append_length. cbn [String.length]. lia.
Qed.

Lemma drop_app (a s : string) (n : nat) :
  Orm.drop (String.length a + n) (a +++ s) = Orm.drop n s.
Proof. induction a as [|c a IH]; [reflexivity | exact IH]. Qed.

(** The text after the marker is what is evaluated. *)
Lemma params_after_marker (front tail : string) :
  marker_free front = true ->
  Orm.slice_from (front +++ Orm.param_prefix +++ tail)
    (Orm.str_find (front +++ Orm.param_prefix +++ tail) Orm.param_prefix
     + Z.of_nat (String.length Orm.param_prefix))
  = tail.
Proof.
  unfold marker_free. intros H.
  destruct (Orm.find_from Orm.param_prefix (front +++ param_prefix_init) 0)
    eqn:E; [discriminate H|].
  unfold Orm.str_find.
  change Orm.param_prefix with (param_prefix_init +++ String " " "") in *.
  rewrite (find_from_marker param_prefix_init " " front tail 0 E).
  change (param_prefix_init +++ String " " "") with Orm.param_prefix.
  unfold Orm.slice_from. cbv zeta.
  assert ((Z.of_nat (0 + String.length front)
           + Z.of_nat (String.length Orm.param_prefix) <? 0)%Z = false) as ->
      by (apply Z.ltb_ge; lia).
  replace (Z.to_nat (Z.of_nat (0 + String.length front)
                     + Z.of_nat (String.length Orm.param_prefix)))
    with (String.length front + String.length Orm.param_prefix) by lia.
  rewrite drop_app. reflexivity.
Qed.


Lemma occurs_join (c : ascii) (sep : string) (parts : list string) :
  occurs c sep = false ->
  Forall (fun p => occurs c p = false) parts ->
  occurs c (Py.join sep parts) = false.
Proof.
  intros Hsep. induction parts as [|p [|q ps] IH]; intros Hall; [reflexivity| |].
  - now inversion Hall.
  - inversion Hall as [|? ? Hp Hrest]; subst.
    rewrite join_cons2, !occurs_app, Hp, Hsep, (IH Hrest). reflexivity.
Qed.

End MarkerFacts.

Section SqlServerRun.

Variable env : Orm.Env.

(** One call on a SQL Server connection, for the log entry [q]. *)
Lemma print_last_sql_server (c : Orm.Connection) (n : nat) (q : Orm.Query)
    (pretty_print : bool) (w : Orm.World) :
  Orm.display_name c = "SQL Server" ->
  1 <= n <= length (Orm.queries c) ->
  nth_error (Orm.queries c) (length (Orm.queries c) - n) = Some q ->
  Orm.print_last_n_sql env c (Z.of_nat n) pretty_print w =
    match Orm.list_getitem (Orm.findall_quoted None (Orm.sql q)) 0 with
    | inl e => (inl e, w)
    | inr first_quoted =>
        match Orm.eval_params env
                (Orm.slice_from (Orm.sql q)
                   (Orm.str_find (Orm.sql q) Orm.param_prefix
                    + Z.of_nat (String.length Orm.param_prefix))) with
        | inl e => (inl e, w)
        | inr params =>
            match Orm._build_sql_with_params
                    (Py.replace "%s" "{}" (Orm.strip Orm.quote first_quoted))
                    params with
            | inl e => (inl e, w)
            | inr text => (inr tt, printed w (shown env pretty_print text +++ Py.nl))
            end
        end
    end.
Proof.
  intros Hv Hn Hq. unfold Orm.print_last_n_sql, Orm.bind at 1, Orm.assert.
  assert ((1 <=? Z.of_nat n)%Z = true) as -> by (apply Z.leb_le; lia).
  cbn [Orm.ret]. rewrite Hv.
  change (("SQL Server" =? "MySQL")%string) with false.
  change (("SQL Server" =? "SQL Server")%string) with true. cbv iota.
  unfold Orm._print_last_n_sql_for_sql_server, Orm.bind, Orm.lift, Orm.last_sql.
  rewrite (getitem_from_end _ _ _ Hn Hq).
  destruct (Orm.list_getitem (Orm.findall_quoted None (Orm.sql q)) 0)
    as [e|first_quoted]; [reflexivity|].
  cbv zeta.
  destruct (Orm.eval_params env _) as [e|params]; [reflexivity|].
  destruct (Orm._build_sql_with_params _ params) as [e|text]; [reflexivity|].
  destruct pretty_print; reflexivity.
Qed.

End SqlServerRun.

(** X14. On a SQL Server connection, for a log entry of the form
    [pre 'TEXT' mid - PARAMS = tail], where [pre] has no quote, [TEXT] is
    pieces of SQL joined by [%s] (the pieces without quote, brace and
    [%s]), and the marker [ - PARAMS = ] does not occur earlier: the text
    written is [TEXT] with its placeholders replaced, in order, by the
    parameters that evaluating [tail] yields, followed by a line feed. *)
Theorem sql_server_query_filled (env : Orm.Env) (c : Orm.Connection)
    (n : nat) (q : Orm.Query) (pre mid tail : string) (parts : list string)
    (params : list Orm.Param) (pretty_print : bool) (w : Orm.World) :
  Orm.display_name c = "SQL Server" ->
  1 <= n <= length (Orm.queries c) ->
  nth_error (Orm.queries c) (length (Orm.queries c) - n) = Some q ->
  Orm.sql q =
    (pre +++ String Orm.quote "" +++ Py.join "%s" parts +++ String Orm.quote ""
     +++ mid) +++ Orm.param_prefix +++ tail ->
  occurs Orm.quote pre = false ->
  parts <> [] ->
  Forall (fun p => sql_piece p = true) parts ->
  marker_free (pre +++ String Orm.quote "" +++ Py.join "%s" parts
               +++ String Orm.quote "" +++ mid) = true ->
  Orm.eval_params env tail = inr params ->
  length parts - 1 <= length params ->
  Orm.print_last_n_sql env c (Z.of_nat n) pretty_print w
  = (inr tt,
     printed w (shown env pretty_print (weave parts (map Orm.sanitize params))
                +++ Py.nl)).
Proof.
  intros Hv Hn Hq Hsql Hpre Hne Hall Hfree Heval Hlen.
  rewrite (print_last_sql_server env c n q pretty_print w Hv Hn Hq).
  assert (Forall (fun p => occurs Orm.quote p = false) parts) as Hquote.
  { eapply Forall_impl; [|exact Hall]. intros p Hp. unfold sql_piece in Hp.
    apply andb_true_iff in Hp as [Hp _]. apply andb_true_iff in Hp as [Hp _].
    now apply negb_true_iff in Hp. }
  assert (Forall (fun p => brace_free p = true) parts) as Hbrace.
  { eapply Forall_impl; [|exact Hall]. intros p Hp. unfold sql_piece in Hp.
    apply andb_true_iff in Hp as [Hp _]. now apply andb_true_iff in Hp as [_ Hp]. }
  assert (Forall (fun p => no_placeholder p = true) parts) as Hplace.
  { eapply Forall_impl; [|exact Hall]. intros p Hp. unfold sql_piece in Hp.
    now apply andb_true_iff in Hp as [_ Hp]. }
  pose proof (occurs_join Orm.quote "%s" parts eq_refl Hquote) as Hbody.
  rewrite Hsql at 1. rewrite !append_assoc.
  rewrite (findall_first pre (Py.join "%s" parts) _ Hpre Hbody).
  assert (Orm.list_getitem
            (String Orm.quote (Py.join "%s" parts +++ String Orm.quote "")
             :: Orm.findall_quoted None (mid +++ Orm.param_prefix +++ tail)) 0
          = inr (String Orm.quote (Py.join "%s" parts +++ String Orm.quote "")))
    as -> by reflexivity.
  rewrite (strip_quoted _ Hbody), (replace_join parts Hplace).
  rewrite Hsql, (params_after_marker _ tail Hfree), Heval.
  unfold Orm._build_sql_with_params. cbv zeta.
  rewrite sanitized_params_map. cbn [app].
  rewrite (format_join parts _ Hne Hbrace), length_map.
  now apply Nat.leb_le in Hlen as ->.
Qed.

Lemma sql_server_query_filled_witness :
  Orm.print_last_n_sql ExampleOrm.env ExampleOrm.mssql 1 false ExampleOrm.world
  = (inr tt,
     printed ExampleOrm.world
       ("select * from t where id = 7 and day = '2020-01-31'" +++ Py.nl)).
Proof.
  apply (sql_server_query_filled ExampleOrm.env ExampleOrm.mssql 1
           (ExampleOrm.query "QUERY = 'select * from t where id = %s and day = %s' - PARAMS = (7, datetime.date(2020, 1, 31))")
           "QUERY = " "" "(7, datetime.date(2020, 1, 31))"
           ["select * from t where id = "; " and day = "; ""]
           [Orm.OtherParam "7"; Orm.DateParam "2020-01-31"]
           false ExampleOrm.world);
    first [reflexivity | cbn; lia | discriminate | repeat constructor].
Defined.

(** X15. On a SQL Server connection, a log entry with fewer than two
    single quotes has no quoted text: the call raises [IndexError] and
    writes nothing, whatever the parameters are. *)
Theorem sql_server_needs_quotes (env : Orm.Env) (c : Orm.Connection)
    (n : nat) (q : Orm.Query) (pretty_print : bool) (w : Orm.World) :
  Orm.display_name c = "SQL Server" ->
  1 <= n <= length (Orm.queries c) ->
  nth_error (Orm.queries c) (length (Orm.queries c) - n) = Some q ->
  count_char Orm.quote (Orm.sql q) <= 1 ->
  Orm.print_last_n_sql env c (Z.of_nat n) pretty_print w
  = (inl Orm.IndexError, w).
Proof.
  intros Hv Hn Hq Hcount.
  rewrite (print_last_sql_server env c n q pretty_print w Hv Hn Hq).
  now rewrite (findall_none _ Hcount).
Qed.

Lemma sql_server_needs_quotes_witness :
  Orm.print_last_n_sql ExampleOrm.env ExampleOrm.mssql_bare 1 true ExampleOrm.world
  = (inl Orm.IndexError, ExampleOrm.world).
Proof.
  apply (sql_server_needs_quotes ExampleOrm.env ExampleOrm.mssql_bare 1
           (ExampleOrm.query "select 1 - PARAMS = ()") true ExampleOrm.world);
    first [reflexivity | cbn; lia].
Defined.


